(** * Authentication core of the contacts backend: a shallow embedding

    The development follows the Python sources:
    - [src/services/auth.py]     : [Hash], [create_access_token],
                                   [create_email_token], [get_current_user],
                                   [get_current_admin_user];
    - [src/repositories/users.py]: [UserRepository];
    - [src/services/email.py]    : the two mail tasks;
    - [src/api/auth.py]          : the account life-cycle routes.

    Handlers are functions in a state-and-exception monad over a [World]
    made of the rows of the [users] table, the Redis client, the queue of
    background tasks and a log of the SELECT statements that were executed.
    A Python exception is a value of [Exn]; an exception that no handler
    catches leaves the route as it is (FastAPI answers 500 unless it is an
    [HTTPException]). *)

From Stdlib Require Import ZArith String Ascii List Bool Lia.
From Stdlib Require Import DecimalString DecimalZ DecimalPos.
From stdpp Require Import base option strings gmap list.

Local Open Scope Z_scope.
Local Open Scope string_scope.

(** ** Exceptions and results *)

Inductive Exn : Type :=
| HTTPException (status_code : Z) (detail : string)
| JWTError
| TypeError (msg : string)
| AttributeError (msg : string)
| KeyError (key : string)
| ValueError (msg : string)
| MultipleResultsFound
| IntegrityError (constraint : string)
| RedisError.

Inductive Res (A : Type) : Type :=
| Ok (a : A)
| Raise (e : Exn).
Arguments Ok {A} a.
Arguments Raise {A} e.

Definition HTTP_400_BAD_REQUEST : Z := 400.
Definition HTTP_401_UNAUTHORIZED : Z := 401.
Definition HTTP_404_NOT_FOUND : Z := 404.
Definition HTTP_409_CONFLICT : Z := 409.
Definition HTTP_422_UNPROCESSABLE_ENTITY : Z := 422.

(** The status a client sees: an [HTTPException] carries its own, any other
    exception that escapes a route is answered with 500. *)
Definition response_status {A} (ok : Z) (r : Res A) : Z :=
  match r with
  | Ok _ => ok
  | Raise (HTTPException s _) => s
  | Raise _ => 500
  end.

Definition res_bind {A B} (r : Res A) (k : A -> Res B) : Res B :=
  match r with
  | Ok a => k a
  | Raise e => Raise e
  end.

(** [try: body except JWTError: handler]: only [JWTError] is caught. *)
Definition except_JWTError {A} (body : Res A) (handler : Res A) : Res A :=
  match body with
  | Raise JWTError => handler
  | r => r
  end.

(** ** Data model *)

Inductive UserRole : Type := ADMIN | USER.

#[global] Instance UserRole_eq_dec : EqDecision UserRole.
Proof. solve_decision. Defined.

(** Modelled from the spec: [src/database/models.py] is not part of the
    sources at hand.  The fields are the ones the routes, the repository and
    the tests read and write: unique id, unique username, unique email,
    hashed password, verification flag, role, optional avatar reference,
    optional temporary password hash.  [password] holds whatever
    [set_new_password] is given, which the reset route takes from
    [temp_password], so it is optional here as well. *)
Module User.
Record t : Type := mk {
  id : Z;
  username : string;
  email : string;
  password : option string;
  is_verified : bool;
  role : UserRole;
  avatar_url : option string;
  temp_password : option string
}.

Definition set_is_verified (v : bool) (u : t) : t :=
  mk (id u) (username u) (email u) (password u) v (role u)
     (avatar_url u) (temp_password u).

Definition set_password (p : option string) (u : t) : t :=
  mk (id u) (username u) (email u) p (is_verified u) (role u)
     (avatar_url u) (temp_password u).

Definition set_temp_password (p : option string) (u : t) : t :=
  mk (id u) (username u) (email u) (password u) (is_verified u) (role u)
     (avatar_url u) p.

Definition set_avatar_url (a : option string) (u : t) : t :=
  mk (id u) (username u) (email u) (password u) (is_verified u) (role u)
     a (temp_password u).
End User.

#[global] Instance User_eq_dec : EqDecision User.t.
Proof. solve_decision. Defined.

(** [src/schemas/users.py] *)
Record UserCreate : Type := {
  uc_username : string;
  uc_email : string;
  uc_password : string;
  uc_role : UserRole
}.

Record UserForgotPassword : Type := {
  user_data : string;
  old_password : string;
  new_password : string
}.

Record OAuth2PasswordRequestForm : Type := {
  form_username : string;
  form_password : string
}.

(** ** Python values that matter here *)

(** [bool(x)] for an optional object without [__bool__] or [__len__]
    (an ORM row): only [None] is falsy. *)
Definition py_bool {A} (x : option A) : bool :=
  match x with
  | Some _ => true
  | None => false
  end.

(** [bool(s)] for [s : str | None]: [None] and the empty string are falsy. *)
Definition py_bool_str (x : option string) : bool :=
  match x with
  | Some s => negb (String.eqb s "")
  | None => false
  end.

(** [str(n)] for an [int]. *)
Definition py_str (n : Z) : string :=
  NilZero.string_of_int (Z.to_int n).

(** [int(s)] for a [str]: an optional minus sign and decimal digits; anything
    else raises [ValueError]. *)
Definition py_int (s : string) : Res Z :=
  match NilZero.int_of_string s with
  | Some d => Ok (Z.of_int d)
  | None => Raise (ValueError "invalid literal for int() with base 10")
  end.

(** ** Configuration and the credential hasher *)

(** [src/conf/config.py] is not part of the sources at hand; the three
    settings the authentication code reads are the fields of [Config]. *)
Class Config : Type := {
  JWT_SECRET : string;
  JWT_ALGORITHM : string;
  JWT_EXPIRATION_SECONDS : Z
}.

(** [CryptContext(schemes=["bcrypt"])] of passlib: [pwd_hash] and
    [pwd_verify] are its [hash] and [verify] on a string digest.  The salt
    that [hash] draws is not modelled. *)
Class CryptContext : Type := {
  pwd_hash : string -> string;
  pwd_verify : string -> string -> bool
}.

(** An argument of a call to a method of [Hash]. *)
Inductive PyArg : Type :=
| HashInstance
| PyStr (s : string)
| PyNone.

Definition PyOptStr (o : option string) : PyArg :=
  match o with
  | Some s => PyStr s
  | None => PyNone
  end.

(** ** JSON web tokens *)

Record Claims : Type := {
  sub : option string;
  iat : option Z;
  exp : option Z
}.

(** What a client can send as a token: a string that is no JWS at all, or a
    JWS with its header algorithm, the key it was signed with and its
    claims. *)
Inductive Jwt : Type :=
| Malformed (raw : string)
| Jws (alg : string) (key : string) (payload : Claims).

Definition jwt_encode (payload : Claims) (key : string) (algorithm : string) : Jwt :=
  Jws algorithm key payload.

(** [jose.jwt.decode(token, key, algorithms)] at time [now] (seconds): the
    algorithm has to be allowed, the signature has to verify under [key],
    and a present [exp] must not lie before [now].  Every failure is a
    [JWTError] ([ExpiredSignatureError] and [JWTClaimsError] are
    subclasses). *)
Definition jwt_decode (now : Z) (token : Jwt) (key : string)
  (algorithms : list string) : Res Claims :=
  match token with
  | Malformed _ => Raise JWTError
  | Jws alg k payload =>
      if negb (bool_decide (alg ∈ algorithms)) then Raise JWTError
      else if negb (String.eqb k key) then Raise JWTError
      else match exp payload with
           | Some e => if Z.ltb e now then Raise JWTError else Ok payload
           | None => Ok payload
           end
  end.

(** ** The session cache (Redis) *)

(** Entries carry the absolute time at which they expire.  [reads_fail] and
    [writes_fail] say whether the backend answers a GET, respectively a SET,
    with an error. *)
Record Redis : Type := {
  entries : gmap string (string * Z);
  reads_fail : bool;
  writes_fail : bool
}.

(** ** The world the routes run in *)

Inductive Query : Type :=
| SelectByEmail (e : string)
| SelectByUsername (u : string)
| SelectById (i : Z).

Inductive Task : Type :=
| send_email_for_confirm (email username host : string)
| send_email_for_reset_password (email username host : string).

Record World : Type := {
  rows : list User.t;
  next_id : Z;
  redis_db : Redis;
  background_tasks : list Task;
  sql_log : list Query
}.

Definition M (A : Type) : Type := World -> Res A * World.

Definition ret {A} (a : A) : M A := fun w => (Ok a, w).

Definition raise {A} (e : Exn) : M A := fun w => (Raise e, w).

Definition bind {A B} (m : M A) (k : A -> M B) : M B :=
  fun w =>
    match m w with
    | (Ok a, w') => k a w'
    | (Raise e, w') => (Raise e, w')
    end.

Definition lift {A} (r : Res A) : M A := fun w => (r, w).

Declare Scope route_scope.
Delimit Scope route_scope with route.
Notation "x <- m ;; k" := (bind m (fun x => k))
  (at level 100, m at next level, right associativity) : route_scope.
Notation "m ;;; k" := (bind m (fun _ => k))
  (at level 100, right associativity) : route_scope.
Local Open Scope route_scope.

Definition with_rows (rs : list User.t) (w : World) : World :=
  {| rows := rs; next_id := next_id w; redis_db := redis_db w;
     background_tasks := background_tasks w; sql_log := sql_log w |}.

Definition with_redis (r : Redis) (w : World) : World :=
  {| rows := rows w; next_id := next_id w; redis_db := r;
     background_tasks := background_tasks w; sql_log := sql_log w |}.

(** [background_tasks.add_task(...)]: the task runs after the response. *)
Definition add_task (t : Task) : M unit :=
  fun w =>
    (Ok tt,
     {| rows := rows w; next_id := next_id w; redis_db := redis_db w;
        background_tasks := background_tasks w ++ [t]; sql_log := sql_log w |}).

(** ** The system of record *)

Definition matches (q : Query) (u : User.t) : bool :=
  match q with
  | SelectByEmail e => String.eqb (User.email u) e
  | SelectByUsername n => String.eqb (User.username u) n
  | SelectById i => Z.eqb (User.id u) i
  end.

(** [Result.scalar_one_or_none()]: no row is [None], one row is that row,
    more rows raise. *)
Definition scalar_one_or_none (found : list User.t) : Res (option User.t) :=
  match found with
  | [] => Ok None
  | [u] => Ok (Some u)
  | _ :: _ :: _ => Raise MultipleResultsFound
  end.

(** [(await session.execute(select(User).where(...))).scalar_one_or_none()] *)
Definition execute (q : Query) : M (option User.t) :=
  fun w =>
    (scalar_one_or_none (List.filter (matches q) (rows w)),
     {| rows := rows w; next_id := next_id w; redis_db := redis_db w;
        background_tasks := background_tasks w; sql_log := sql_log w ++ [q] |}).

(** An attribute assignment on a loaded row followed by
    [await session.commit()]: the row with that primary key is rewritten. *)
Definition setattr_commit (i : Z) (f : User.t -> User.t) : M unit :=
  fun w =>
    (Ok tt,
     with_rows (map (fun r => if Z.eqb (User.id r) i then f r else r) (rows w)) w).

(** Modelled from the spec: [session.add(user)], [commit] and [refresh] for a
    new row.  The table declaration is in [src/database/models.py], which is
    not part of the sources at hand; the spec gives a principal a unique id,
    a unique username and a unique email, so the INSERT takes the next id of
    the sequence and is refused with an integrity error when the username
    or the email is taken. *)
Definition add_commit_refresh (new : Z -> User.t) : M User.t :=
  fun w =>
    let user := new (next_id w) in
    if existsb (fun r => String.eqb (User.username r) (User.username user)) (rows w)
    then (Raise (IntegrityError "users_username_key"), w)
    else if existsb (fun r => String.eqb (User.email r) (User.email user)) (rows w)
    then (Raise (IntegrityError "users_email_key"), w)
    else (Ok user,
          {| rows := rows w ++ [user]; next_id := next_id w + 1;
             redis_db := redis_db w; background_tasks := background_tasks w;
             sql_log := sql_log w |}).

(** [src/repositories/users.py] *)
Module UserRepository.

Definition create_user (data : UserCreate) (avatar : option string) : M User.t :=
  add_commit_refresh
    (fun i =>
       {| User.id := i;
          User.username := uc_username data;
          User.email := uc_email data;
          User.password := Some (uc_password data);
          User.is_verified := false;
          User.role := uc_role data;
          User.avatar_url := avatar;
          User.temp_password := None |}).

Definition get_user_by_email (email : string) : M (option User.t) :=
  execute (SelectByEmail email).

Definition get_user_by_username (username : string) : M (option User.t) :=
  execute (SelectByUsername username).

Definition set_user_verified (email : string) : M unit :=
  user <- get_user_by_email email ;;
  match user with
  | None => raise (AttributeError "is_verified")
  | Some user => setattr_commit (User.id user) (User.set_is_verified true)
  end.

Definition set_new_password (password : option string) (email : string) : M unit :=
  user <- get_user_by_email email ;;
  match user with
  | None => raise (AttributeError "password")
  | Some user => setattr_commit (User.id user) (User.set_password password)
  end.

Definition set_temp_password (password : option string) (email : string) : M unit :=
  user <- get_user_by_email email ;;
  match user with
  | None => raise (AttributeError "temp_password")
  | Some user => setattr_commit (User.id user) (User.set_temp_password password)
  end.

(** [session.refresh(user)] reads the row again after the commit: what is
    returned is the row with its new avatar. *)
Definition update_avatar_url (email url : string) : M User.t :=
  user <- get_user_by_email email ;;
  match user with
  | None => raise (AttributeError "avatar_url")
  | Some user =>
      setattr_commit (User.id user) (User.set_avatar_url (Some url)) ;;;
      ret (User.set_avatar_url (Some url) user)
  end.

End UserRepository.

(** Modelled from the spec: [src/services/users.py] is not part of the
    sources at hand.  The routes use [UserService] as the system-of-record
    interface of the spec ([find_by_username], [find_by_email], [create],
    [save]); each method hands over to the method of [UserRepository] with
    the same name.  The avatar that [create_user] passes on is an input. *)
Module UserService.

Definition create_user := UserRepository.create_user.
Definition get_user_by_email := UserRepository.get_user_by_email.
Definition get_user_by_username := UserRepository.get_user_by_username.
Definition set_user_verified := UserRepository.set_user_verified.
Definition set_new_password := UserRepository.set_new_password.
Definition set_temp_password := UserRepository.set_temp_password.
Definition update_avatar_url := UserRepository.update_avatar_url.

End UserService.

(** ** [src/services/auth.py] *)

Module Hash.

(** [def verify_password(self, plain_password, hashed_password)]: the list is
    the positional arguments after Python has bound the call.  passlib's
    [verify] answers [False] for a [None] digest. *)
Definition verify_password `{CryptContext} (args : list PyArg) : Res bool :=
  match args with
  | [self; plain_password; hashed_password] =>
      match self with
      | HashInstance =>
          match plain_password, hashed_password with
          | PyStr p, PyStr h => Ok (pwd_verify p h)
          | PyStr _, PyNone => Ok false
          | _, _ => Raise (TypeError "secret must be unicode or bytes")
          end
      | _ => Raise (AttributeError "pwd_context")
      end
  | _ => Raise (TypeError "verify_password(): wrong number of positional arguments")
  end.

(** [def get_password_hash(self, password)] *)
Definition get_password_hash `{CryptContext} (args : list PyArg) : Res string :=
  match args with
  | [self; password] =>
      match self with
      | HashInstance =>
          match password with
          | PyStr p => Ok (pwd_hash p)
          | _ => Raise (TypeError "secret must be unicode or bytes")
          end
      | _ => Raise (AttributeError "pwd_context")
      end
  | _ => Raise (TypeError "get_password_hash() missing 1 required positional argument: 'password'")
  end.

End Hash.

(** [Hash().f(args)]: the fresh instance is bound to [self]. *)
Definition call_on_instance {A} (f : list PyArg -> Res A) (args : list PyArg) : Res A :=
  f (HashInstance :: args).

(** [Hash.f(args)]: the function is looked up on the class, nothing is bound
    to [self], the arguments fill the parameters from the left. *)
Definition call_on_class {A} (f : list PyArg -> Res A) (args : list PyArg) : Res A :=
  f args.

Definition with_exp (e : Z) (c : Claims) : Claims :=
  {| sub := sub c; iat := iat c; exp := Some e |}.

Definition with_iat_exp (i e : Z) (c : Claims) : Claims :=
  {| sub := sub c; iat := Some i; exp := Some e |}.

(** [{"sub": s}] *)
Definition sub_only (s : string) : Claims :=
  {| sub := Some s; iat := None; exp := None |}.

Definition py_bool_int (x : option Z) : bool :=
  match x with
  | Some n => negb (Z.eqb n 0)
  | None => false
  end.

Definition create_access_token `{Config} (now : Z) (data : Claims)
  (expires_delta : option Z) : Jwt :=
  let to_encode := data in
  let expire :=
    if py_bool_int expires_delta
    then now + default 0 expires_delta
    else now + JWT_EXPIRATION_SECONDS in
  let to_encode := with_exp expire to_encode in
  jwt_encode to_encode JWT_SECRET JWT_ALGORITHM.

Definition seconds_per_day : Z := 86400.

Definition create_email_token `{Config} (now : Z) (data : Claims) : Jwt :=
  let to_encode := data in
  let expire := now + 7 * seconds_per_day in
  let to_encode := with_iat_exp now expire to_encode in
  jwt_encode to_encode JWT_SECRET JWT_ALGORITHM.

(** [await redis_db.get(key)] at time [now]: a key is gone once its expiry
    time is reached. *)
Definition redis_get (now : Z) (key : string) : M (option string) :=
  fun w =>
    if reads_fail (redis_db w) then (Raise RedisError, w)
    else match entries (redis_db w) !! key with
         | Some (value, expires) =>
             if Z.ltb now expires then (Ok (Some value), w) else (Ok None, w)
         | None => (Ok None, w)
         end.

(** [await redis_db.set(key, value, ex=ex)] at time [now] *)
Definition redis_set (now : Z) (key value : string) (ex : Z) : M unit :=
  fun w =>
    if writes_fail (redis_db w) then (Raise RedisError, w)
    else (Ok tt,
          with_redis
            {| entries := <[key := (value, now + ex)]> (entries (redis_db w));
               reads_fail := reads_fail (redis_db w);
               writes_fail := writes_fail (redis_db w) |} w).

Definition credentials_exception : Exn :=
  HTTPException HTTP_401_UNAUTHORIZED "Could not validate credentials".

Definition cache_key_of (username : string) : string :=
  "curr_user:" ++ username.

(** The [try] block of [get_current_user]: the subject of the token. *)
Definition token_subject `{Config} (now : Z) (token : Jwt) : Res string :=
  except_JWTError
    (res_bind (jwt_decode now token JWT_SECRET [JWT_ALGORITHM]) (fun payload =>
       let username := sub payload in
       if negb (py_bool_str username) then Raise credentials_exception
       else Ok (default "" username)))
    (Raise credentials_exception).

Definition get_current_user `{Config} (now : Z) (token : Jwt) : M User.t :=
  username <- lift (token_subject now token) ;;
  let cache_key := cache_key_of username in
  user_id <- redis_get now cache_key ;;
  cached <- (if py_bool_str user_id then
               i <- lift (py_int (default "" user_id)) ;;
               execute (SelectById i)
             else ret None) ;;
  match cached with
  | Some user => ret user
  | None =>
      user <- execute (SelectByUsername username) ;;
      match user with
      | None => raise credentials_exception
      | Some user =>
          redis_set now cache_key (py_str (User.id user)) 900 ;;;
          ret user
      end
  end.

Definition get_current_admin_user (current_user : User.t) : Res User.t :=
  if negb (bool_decide (User.role current_user = ADMIN))
  then Raise (HTTPException 403 "Недостатньо прав доступу")
  else Ok current_user.

(** [Depends(get_current_admin_user)]: the resolver runs first, the role
    check on what it returns. *)
Definition admin_dependency `{Config} (now : Z) (token : Jwt) : M User.t :=
  current_user <- get_current_user now token ;;
  lift (get_current_admin_user current_user).

(** ** [src/services/email.py] *)

(** The token that a mail task puts into its message when it runs at time
    [now]. *)
Definition task_token `{Config} (now : Z) (t : Task) : Jwt :=
  match t with
  | send_email_for_confirm email _ _ => create_email_token now (sub_only email)
  | send_email_for_reset_password email _ _ => create_email_token now (sub_only email)
  end.

(** ** [src/api/auth.py] *)

Record TokenResponse : Type := {
  access_token : Jwt;
  token_type : string
}.

Definition register_user `{Config} `{CryptContext} (user_data : UserCreate)
  (base_url : string) (avatar : option string) : M User.t :=
  is_user <- UserService.get_user_by_email (uc_email user_data) ;;
  if py_bool is_user
  then raise (HTTPException HTTP_409_CONFLICT "User has already exist")
  else
    hashed <- lift (call_on_instance Hash.get_password_hash
                      [PyStr (uc_password user_data)]) ;;
    let user_data :=
      {| uc_username := uc_username user_data; uc_email := uc_email user_data;
         uc_password := hashed; uc_role := uc_role user_data |} in
    new_user <- UserService.create_user user_data avatar ;;
    add_task (send_email_for_confirm (User.email new_user)
                (User.username new_user) base_url) ;;;
    ret new_user.

Definition login_user `{Config} `{CryptContext} (now : Z)
  (form_data : OAuth2PasswordRequestForm) : M TokenResponse :=
  user <- UserService.get_user_by_username (form_username form_data) ;;
  (* [user.is_verified] is read before [user] is tested *)
  is_verified <- lift (match user with
                       | Some u => Ok (User.is_verified u)
                       | None => Raise (AttributeError "is_verified")
                       end) ;;
  if negb is_verified
  then raise (HTTPException HTTP_401_UNAUTHORIZED "Електронна адреса не підтверджена")
  else
    bad <- lift (match user with
                 | None => Ok true
                 | Some u =>
                     res_bind (call_on_instance Hash.verify_password
                                 [PyStr (form_password form_data);
                                  PyOptStr (User.password u)])
                              (fun ok => Ok (negb ok))
                 end) ;;
    if bad
    then raise (HTTPException HTTP_401_UNAUTHORIZED "Incorrect email or password")
    else
      let access_token :=
        create_access_token now (sub_only (default "" (User.username <$> user))) None in
      ret {| access_token := access_token; token_type := "bearer" |}.

Definition get_email_from_token `{Config} (now : Z) (token : Jwt) : Res string :=
  except_JWTError
    (res_bind (jwt_decode now token JWT_SECRET [JWT_ALGORITHM]) (fun payload =>
       match sub payload with
       | Some email => Ok email
       | None => Raise (KeyError "sub")
       end))
    (Raise (HTTPException HTTP_422_UNPROCESSABLE_ENTITY
              "Неправильний токен для перевірки електронної пошти")).

Definition confirmed_email `{Config} (now : Z) (token : Jwt) : M string :=
  email <- lift (get_email_from_token now token) ;;
  user <- UserService.get_user_by_email email ;;
  match user with
  | None => raise (HTTPException HTTP_400_BAD_REQUEST "Verification error")
  | Some user =>
      if User.is_verified user
      then ret "Ваша електронна пошта вже підтверджена"
      else
        UserService.set_user_verified email ;;;
        ret "Електронну пошту підтверджено"
  end.

Definition forgot_password `{Config} `{CryptContext} (data : UserForgotPassword)
  (base_url : string) : M string :=
  user <- UserService.get_user_by_email (user_data data) ;;
  user <- match user with
          | Some user => ret user
          | None =>
              user <- UserService.get_user_by_username (user_data data) ;;
              match user with
              | Some user => ret user
              | None => raise (HTTPException HTTP_404_NOT_FOUND "User does not exist")
              end
          end ;;
  ok <- lift (call_on_instance Hash.verify_password
                [PyStr (old_password data); PyOptStr (User.password user)]) ;;
  if negb ok
  then raise (HTTPException HTTP_400_BAD_REQUEST "Incorrect old password")
  else if bool_decide (Some (new_password data) = User.password user)
  then raise (HTTPException HTTP_400_BAD_REQUEST
                "New password must be different from the current password")
  else
    temp_pass_hashed <- lift (call_on_class Hash.get_password_hash
                                [PyStr (new_password data)]) ;;
    UserService.set_temp_password (Some temp_pass_hashed) (User.email user) ;;;
    add_task (send_email_for_reset_password (User.email user)
                (User.username user) base_url) ;;;
    ret "Check your email to confirm new password".

(** The route [GET /auth/reset_password/{token}]; the source names its
    function [confirmed_email] a second time. *)
Definition reset_password `{Config} (now : Z) (token : Jwt) : M string :=
  email <- lift (get_email_from_token now token) ;;
  user <- UserService.get_user_by_email email ;;
  match user with
  | None => raise (HTTPException HTTP_400_BAD_REQUEST "Verification error")
  | Some user =>
      UserService.set_new_password (User.temp_password user) (User.email user) ;;;
      UserService.set_temp_password None (User.email user) ;;;
      ret "Password successfully changed"
  end.

(** ** Auxiliary definitions for the statements *)

(** The world after one more SELECT has been logged. *)
Definition logged (q : Query) (w : World) : World :=
  {| rows := rows w; next_id := next_id w; redis_db := redis_db w;
     background_tasks := background_tasks w; sql_log := sql_log w ++ [q] |}.

(** A concrete deployment for the examples: a toy digest that prefixes the
    plaintext, one verified user, an empty and healthy cache. *)
Definition demo_config : Config :=
  {| JWT_SECRET := "secret"; JWT_ALGORITHM := "HS256";
     JWT_EXPIRATION_SECONDS := 3600 |}.

Definition demo_crypt : CryptContext :=
  {| pwd_hash := fun p => "$2b$" ++ p;
     pwd_verify := fun p h => String.eqb h ("$2b$" ++ p) |}.

Definition alice : User.t :=
  {| User.id := 1; User.username := "alice"; User.email := "alice@x.com";
     User.password := Some "$2b$pw1"; User.is_verified := true;
     User.role := USER; User.avatar_url := None; User.temp_password := None |}.

Definition demo_redis : Redis :=
  {| entries := ∅; reads_fail := false; writes_fail := false |}.

Definition demo_world : World :=
  {| rows := [alice]; next_id := 2; redis_db := demo_redis;
     background_tasks := []; sql_log := [] |}.

(** What the reset route does to one row: the two commits of
    [set_new_password] and [set_temp_password] on the row with primary key
    [i], in that order. *)
Definition promote_temp_password (i : Z) (staged : option string) (r : User.t) : User.t :=
  if Z.eqb (User.id r) i
  then User.set_temp_password None (User.set_password staged r)
  else r.

(** The same user in the middle of a reset. *)
Definition alice_pending : User.t :=
  User.set_temp_password (Some "$2b$pw2") alice.

Definition pending_world : World :=
  {| rows := [alice_pending]; next_id := 2; redis_db := demo_redis;
     background_tasks := []; sql_log := [] |}.

(** The purpose token mailed to alice at time 0. *)
Definition alice_mail_token : Jwt :=
  @create_email_token demo_config 0 (sub_only "alice@x.com").

(** ConfirmEmail called once per element of [calls] (time and token), one
    call after the other: the answers, and the world after the last call. *)
Fixpoint confirm_all `{Config} (calls : list (Z * Jwt)) (w : World)
  : list (Res string) * World :=
  match calls with
  | [] => ([], w)
  | (now, token) :: calls =>
      let (r, w') := confirmed_email now token w in
      let (rs, w'') := confirm_all calls w' in
      (r :: rs, w'')
  end.

(** The detail of the 422 answer of [get_email_from_token]. *)
Definition bad_token_detail : string :=
  "Неправильний токен для перевірки електронної пошти".

(** The primary key of the table: no two rows share an id, and the sequence
    is ahead of every id in use. *)
Definition primary_key_ok (w : World) : Prop :=
  List.NoDup (map User.id (rows w)) /\ Forall (fun r => User.id r < next_id w) (rows w).

(** The cache after the resolver has stored the id of [u] at time [now]. *)
Definition cached (now : Z) (u : User.t) (r : Redis) : Redis :=
  {| entries := <[cache_key_of (User.username u) := (py_str (User.id u), now + 900)]>
                  (entries r);
     reads_fail := reads_fail r;
     writes_fail := writes_fail r |}.

(** A world whose cache backend answers every GET with an error. *)
Definition cache_down_world : World :=
  with_redis {| entries := ∅; reads_fail := true; writes_fail := true |} demo_world.

(** A world whose cache backend serves reads and refuses writes. *)
Definition cache_readonly_world : World :=
  with_redis {| entries := ∅; reads_fail := false; writes_fail := true |} demo_world.

(** A session token for alice, issued at time 100. *)
Definition alice_session_token : Jwt :=
  @create_access_token demo_config 100 (sub_only "alice") None.

(** The second half of [get_current_user], from the SELECT by username on:
    what the resolver does when the cache gave no row. *)
Definition username_lookup (now : Z) (username : string) : M User.t :=
  user <- execute (SelectByUsername username) ;;
  match user with
  | None => raise credentials_exception
  | Some user =>
      redis_set now (cache_key_of username) (py_str (User.id user)) 900 ;;;
      ret user
  end.

(** An unauthenticated caller registers, opens the link of the confirmation
    mail (sent at [t_mail]), logs in with the password just chosen and
    presents the session token to an admin-only route. *)
Definition register_confirm_login_admin `{Config} `{CryptContext}
  (user_data : UserCreate) (base_url : string) (avatar : option string)
  (t_mail t_confirm t_login t_admin : Z) : M User.t :=
  new_user <- register_user user_data base_url avatar ;;
  confirmed_email t_confirm
    (task_token t_mail
       (send_email_for_confirm (User.email new_user) (User.username new_user)
          base_url)) ;;;
  session <- login_user t_login
               {| form_username := uc_username user_data;
                  form_password := uc_password user_data |} ;;
  admin_dependency t_admin (access_token session).

(** The row that [create_user] inserts for a registration. *)
Definition new_row `{CryptContext} (user_data : UserCreate) (avatar : option string)
  (i : Z) : User.t :=
  {| User.id := i;
     User.username := uc_username user_data;
     User.email := uc_email user_data;
     User.password := Some (pwd_hash (uc_password user_data));
     User.is_verified := false;
     User.role := uc_role user_data;
     User.avatar_url := avatar;
     User.temp_password := None |}.

(** A registration that asks for the admin role. *)
Definition mallory_request : UserCreate :=
  {| uc_username := "mallory"; uc_email := "mallory@x.com";
     uc_password := "pw"; uc_role := ADMIN |}.

(** A computation keeps a property of the world, whatever it returns. *)
Definition preserves {A} (P : World -> Prop) (m : M A) : Prop :=
  forall w, P w -> P (snd (m w)).

(** ** The remaining routes of [src/api/auth.py] and [src/api/users.py] *)

(** The route [POST /auth/request_email].  It reads [user.confirmed], where
    the rest of the code reads [user.is_verified]; the table declaration is
    not part of the sources at hand, so what that read gives on a row is the
    parameter [confirmed].  The read comes before the test [if user]. *)
Definition request_email (confirmed : User.t -> Res bool) (body_email : string)
  (base_url : string) : M string :=
  user <- UserService.get_user_by_email body_email ;;
  is_confirmed <- lift (match user with
                        | Some u => confirmed u
                        | None => Raise (AttributeError "confirmed")
                        end) ;;
  if is_confirmed
  then ret "Ваша електронна пошта вже підтверджена"
  else
    match user with
    | Some u =>
        add_task (send_email_for_confirm (User.email u) (User.username u) base_url)
    | None => ret tt
    end ;;;
    ret "Перевірте свою електронну пошту для підтвердження".

(** [src/api/users.py].  The rate limit of [/me] is not modelled.
    [UploadFileService.upload_file] is outside the sources at hand: what it
    returns for the file and the username is the parameter [upload_file]. *)
Module UsersApi.

Definition me `{Config} (now : Z) (token : Jwt) : M User.t :=
  get_current_user now token.

Definition update_avatar_user `{Config} (upload_file : string -> string -> Res string)
  (now : Z) (token : Jwt) (file : string) : M User.t :=
  user <- admin_dependency now token ;;
  avatar_url <- lift (upload_file file (User.username user)) ;;
  UserService.update_avatar_url (User.email user) avatar_url.

End UsersApi.

(** ** Contacts: [src/repositories/contacts.py] and [src/api/contacts.py] *)

(** Modelled from the spec: the [Contact] table is declared in
    [src/database/models.py], which is not part of the sources at hand.  The
    columns are the fields of [ContactBase] in [src/schemas/contacts.py]
    together with [id] and [user_id], as the repository and its tests use
    them.  A [date] is its day number. *)
Module Contact.
Record t : Type := mk {
  id : Z;
  name : string;
  surname : string;
  email : string;
  phone : string;
  birthday : Z;
  info : option string;
  user_id : Z
}.
End Contact.

(** [ContactCreate.model_dump()] *)
Record ContactCreate : Type := {
  cc_name : string;
  cc_surname : string;
  cc_email : string;
  cc_phone : string;
  cc_birthday : Z;
  cc_info : option string
}.

(** The [contacts] table and its id sequence. *)
Record ContactStore : Type := {
  contacts : list Contact.t;
  next_contact_id : Z
}.

(** [Result.scalar_one_or_none()] on contacts. *)
Definition contact_one_or_none (found : list Contact.t) : Res (option Contact.t) :=
  match found with
  | [] => Ok None
  | [c] => Ok (Some c)
  | _ :: _ :: _ => Raise MultipleResultsFound
  end.

(** The operator [ILIKE] of the database, on a column value and a pattern. *)
Class Ilike : Type := ilike : string -> string -> bool.

Module ContactRepository.

(** A [Contact] built from the fields of [data] and [user=user], then [add],
    [commit], [refresh]: the row takes the next id and the id of [user]. *)
Definition create (data : ContactCreate) (user : User.t) (s : ContactStore)
  : Res Contact.t * ContactStore :=
  let contact :=
    {| Contact.id := next_contact_id s;
       Contact.name := cc_name data;
       Contact.surname := cc_surname data;
       Contact.email := cc_email data;
       Contact.phone := cc_phone data;
       Contact.birthday := cc_birthday data;
       Contact.info := cc_info data;
       Contact.user_id := User.id user |} in
  (Ok contact,
   {| contacts := contacts s ++ [contact];
      next_contact_id := next_contact_id s + 1 |}).

Definition get_all `{Ilike} (user : User.t) (query : option string)
  (s : ContactStore) : Res (list Contact.t) * ContactStore :=
  let stmt := fun c : Contact.t => Z.eqb (Contact.user_id c) (User.id user) in
  let stmt :=
    if py_bool_str query then
      let pattern := "%" ++ default "" query ++ "%" in
      fun c => stmt c &&
               (ilike (Contact.name c) pattern
                || ilike (Contact.surname c) pattern
                || ilike (Contact.email c) pattern)
    else stmt in
  (Ok (List.filter stmt (contacts s)), s).

Definition get_by_id (contact_id : Z) (s : ContactStore)
  : Res (option Contact.t) * ContactStore :=
  (contact_one_or_none
     (List.filter (fun c => Z.eqb (Contact.id c) contact_id) (contacts s)), s).

(** [session.delete(contact)] and [commit]: the row with the primary key of
    [contact] goes. *)
Definition delete (contact : Contact.t) (s : ContactStore)
  : Res unit * ContactStore :=
  (Ok tt,
   {| contacts := List.filter (fun c => negb (Z.eqb (Contact.id c) (Contact.id contact)))
                    (contacts s);
      next_contact_id := next_contact_id s |}).

(** [today] is [date.today()]; [between] includes both ends. *)
Definition upcoming_birthdays (today : Z) (s : ContactStore)
  : Res (list Contact.t) * ContactStore :=
  let limit := today + 7 in
  (Ok (List.filter (fun c => Z.leb today (Contact.birthday c)
                             && Z.leb (Contact.birthday c) limit) (contacts s)), s).

End ContactRepository.

(** Modelled from the spec: [src/services/contacts.py] is not part of the
    sources at hand; the spec treats the contacts service as data-access
    glue, so each method hands over to the repository method it is named
    after. *)
Module ContactService.

Definition create_contact := ContactRepository.create.
Definition list_contacts `{Ilike} := ContactRepository.get_all.
Definition get_contact := ContactRepository.get_by_id.
Definition delete_contact := ContactRepository.delete.
Definition birthdays := ContactRepository.upcoming_birthdays.

End ContactService.

(** The two tables a contacts route can touch, with the cache and the rest
    of the world of the resolver. *)
Definition App : Type := World * ContactStore.

(** [user: User = Depends(get_current_user)]: the resolver runs on the
    world; the body of the route runs on the contacts when it returned a
    principal. *)
Definition depends_get_current_user `{Config} {A} (now : Z) (token : Jwt)
  (body : User.t -> ContactStore -> Res A * ContactStore) (app : App)
  : Res A * App :=
  match get_current_user now token (fst app) with
  | (Ok user, w') =>
      let (r, s') := body user (snd app) in (r, (w', s'))
  | (Raise e, w') => (Raise e, (w', snd app))
  end.

(** A route without dependency on the resolver. *)
Definition no_dependency {A} (body : ContactStore -> Res A * ContactStore)
  (app : App) : Res A * App :=
  let (r, s') := body (snd app) in (r, (fst app, s')).

Module ContactsApi.

Definition create `{Config} (now : Z) (token : Jwt) (contact : ContactCreate)
  : App -> Res Contact.t * App :=
  depends_get_current_user now token
    (fun user => ContactService.create_contact contact user).

Definition list_contacts `{Config} `{Ilike} (now : Z) (token : Jwt)
  (q : option string) : App -> Res (list Contact.t) * App :=
  depends_get_current_user now token
    (fun user => ContactService.list_contacts user q).

Definition get (contact_id : Z) : App -> Res Contact.t * App :=
  no_dependency (fun s =>
    match ContactService.get_contact contact_id s with
    | (Ok contact, s') =>
        match contact with
        | None => (Raise (HTTPException 404 "Not Found"), s')
        | Some contact => (Ok contact, s')
        end
    | (Raise e, s') => (Raise e, s')
    end).

Definition delete (contact_id : Z) : App -> Res string * App :=
  no_dependency (fun s =>
    match ContactService.get_contact contact_id s with
    | (Ok contact, s') =>
        match contact with
        | None => (Raise (HTTPException 404 "Not Found"), s')
        | Some contact =>
            match ContactService.delete_contact contact s' with
            | (Ok _, s'') => (Ok "deleted", s'')
            | (Raise e, s'') => (Raise e, s'')
            end
        end
    | (Raise e, s') => (Raise e, s')
    end).

Definition birthdays (today : Z) : App -> Res (list Contact.t) * App :=
  no_dependency (ContactService.birthdays today).

End ContactsApi.

(** ** Further examples *)

(** The lifetime that [create_access_token] gives a token. *)
Definition session_ttl `{Config} (expires_delta : option Z) : Z :=
  match expires_delta with
  | Some d => if Z.eqb d 0 then JWT_EXPIRATION_SECONDS else d
  | None => JWT_EXPIRATION_SECONDS
  end.

Definition bob : User.t :=
  {| User.id := 2; User.username := "bob"; User.email := "bob@x.com";
     User.password := Some "$2b$pw3"; User.is_verified := false;
     User.role := USER; User.avatar_url := None; User.temp_password := None |}.

(** Two users, and a cache entry for alice's subject that names bob's id. *)
Definition crossed_world : World :=
  {| rows := [alice; bob]; next_id := 3;
     redis_db := {| entries := {[ "curr_user:alice" := ("2", 5000) ]};
                    reads_fail := false; writes_fail := false |};
     background_tasks := []; sql_log := [] |}.

(** A cache entry for alice's subject that names an id without a row. *)
Definition stale_world : World :=
  {| rows := [alice]; next_id := 2;
     redis_db := {| entries := {[ "curr_user:alice" := ("7", 5000) ]};
                    reads_fail := false; writes_fail := false |};
     background_tasks := []; sql_log := [] |}.

(** A validly signed purpose token that carries no subject. *)
Definition subjectless_token : Jwt :=
  Jws "HS256" "secret" {| sub := None; iat := Some 0; exp := Some 604800 |}.

(** No row is in the middle of a reset. *)
Definition no_staged_digest (w : World) : Prop :=
  Forall (fun r => User.temp_password r = None) (rows w).

(** A registered and verified principal whose username is the empty
    string. *)
Definition nameless : User.t :=
  {| User.id := 1; User.username := ""; User.email := "n@x.com";
     User.password := Some "$2b$pw1"; User.is_verified := true;
     User.role := USER; User.avatar_url := None; User.temp_password := None |}.

Definition nameless_world : World :=
  {| rows := [nameless]; next_id := 2; redis_db := demo_redis;
     background_tasks := []; sql_log := [] |}.

(** A property of the world that only looks at the [users] table. *)
Definition on_table (P : World -> Prop) : Prop :=
  forall w w', rows w = rows w' -> P w -> P w'.

(** An administrator, a cache that is empty and healthy, and an upload
    service that answers with a fixed address. *)
Definition root : User.t :=
  {| User.id := 3; User.username := "root"; User.email := "root@x.com";
     User.password := Some "$2b$pw9"; User.is_verified := true;
     User.role := ADMIN; User.avatar_url := None; User.temp_password := None |}.

Definition staff_world : World :=
  {| rows := [alice; root]; next_id := 4; redis_db := demo_redis;
     background_tasks := []; sql_log := [] |}.

Definition demo_upload (file username : string) : Res string :=
  Ok ("https://media.example/" ++ username).

(** The contacts of a user, in table order. *)
Definition owned_by (user : User.t) (s : ContactStore) : list Contact.t :=
  List.filter (fun c => Z.eqb (Contact.user_id c) (User.id user)) (contacts s).

(** The primary key of the [contacts] table. *)
Definition contact_key_ok (s : ContactStore) : Prop :=
  List.NoDup (map Contact.id (contacts s)) /\
  Forall (fun c => Contact.id c < next_contact_id s) (contacts s).

(** An [ILIKE] for the examples: it accepts a value that is the text
    between the two percent signs of the pattern. *)
Definition demo_ilike : Ilike :=
  fun value pattern => String.eqb ("%" ++ value ++ "%") pattern.

Definition john : Contact.t :=
  {| Contact.id := 1; Contact.name := "John"; Contact.surname := "Doe";
     Contact.email := "john@example.com"; Contact.phone := "+111";
     Contact.birthday := 738000; Contact.info := None; Contact.user_id := 1 |}.

Definition jane : Contact.t :=
  {| Contact.id := 2; Contact.name := "Jane"; Contact.surname := "Smith";
     Contact.email := "jane@example.com"; Contact.phone := "+222";
     Contact.birthday := 738005; Contact.info := None; Contact.user_id := 2 |}.

Definition demo_contacts : ContactStore :=
  {| contacts := [john; jane]; next_contact_id := 3 |}.

Definition demo_contact_request : ContactCreate :=
  {| cc_name := "Ann"; cc_surname := "Lee"; cc_email := "ann@example.com";
     cc_phone := "+333"; cc_birthday := 738010; cc_info := Some "colleague" |}.

(** * Properties *)

(** ** Integers in the cache *)

Lemma py_int_py_str (n : Z) : py_int (py_str n) = Ok n.
Proof.
  unfold py_int, py_str.
  rewrite NilZero.isi.
  - now rewrite DecimalZ.of_to.
  - destruct n; simpl; try discriminate.
    intros [= E]. now apply Unsigned.to_uint_nonnil in E.
  - destruct n; simpl; try discriminate.
    intros [= E]. now apply Unsigned.to_uint_nonnil in E.
Qed.

Lemma py_str_nonempty (n : Z) : py_str n <> "".
Proof.
  intros E. pose proof (py_int_py_str n) as H.
  rewrite E in H. discriminate H.
Qed.

Lemma py_bool_str_py_str (n : Z) : py_bool_str (Some (py_str n)) = true.
Proof.
  simpl. destruct (String.eqb_spec (py_str n) ""); [|reflexivity].
  now apply py_str_nonempty in e.
Qed.

(** ** Tokens *)

Lemma jwt_decode_raises_JWTError now token key algorithms e :
  jwt_decode now token key algorithms = Raise e -> e = JWTError.
Proof.
  unfold jwt_decode. destruct token as [raw|alg k payload].
  - now intros [= <-].
  - destruct (negb (bool_decide (alg ∈ algorithms))); [now intros [= <-]|].
    destruct (negb (String.eqb k key)); [now intros [= <-]|].
    destruct (exp payload) as [x|]; [|discriminate].
    destruct (Z.ltb x now); [now intros [= <-]|discriminate].
Qed.

(** A token issued by the server decodes to its claims as long as it has not
    expired. *)
Lemma jwt_decode_own `{Config} now payload x :
  exp payload = Some x -> now <= x ->
  jwt_decode now (jwt_encode payload JWT_SECRET JWT_ALGORITHM) JWT_SECRET
    [JWT_ALGORITHM] = Ok payload.
Proof.
  intros Hexp Hle. unfold jwt_decode, jwt_encode.
  rewrite bool_decide_eq_true_2 by apply list_elem_of_singleton, eq_refl.
  rewrite String.eqb_refl. simpl. rewrite Hexp.
  destruct (Z.ltb_spec x now); [lia|reflexivity].
Qed.

Lemma get_email_from_token_decoded `{Config} now token payload email :
  jwt_decode now token JWT_SECRET [JWT_ALGORITHM] = Ok payload ->
  sub payload = Some email ->
  get_email_from_token now token = Ok email.
Proof.
  intros Hd Hs. unfold get_email_from_token. rewrite Hd. simpl. now rewrite Hs.
Qed.

(** Both mail tasks put the same token into their message. *)
Lemma task_token_same `{Config} now email username host :
  task_token now (send_email_for_confirm email username host)
  = task_token now (send_email_for_reset_password email username host).
Proof. reflexivity. Qed.

Lemma email_token_decodes `{Config} issued now email :
  now <= issued + 7 * seconds_per_day ->
  get_email_from_token now (create_email_token issued (sub_only email)) = Ok email.
Proof.
  intros Hle. unfold create_email_token.
  apply get_email_from_token_decoded
    with (payload := with_iat_exp issued (issued + 7 * seconds_per_day) (sub_only email));
    [|reflexivity].
  now apply jwt_decode_own with (x := issued + 7 * seconds_per_day).
Qed.

(** ** Queries *)

Lemma execute_eq q w :
  execute q w = (scalar_one_or_none (List.filter (matches q) (rows w)), logged q w).
Proof. reflexivity. Qed.

Lemma filter_matches_map q (g : User.t -> User.t) rs :
  (forall r, matches q (g r) = matches q r) ->
  List.filter (matches q) (map g rs) = map g (List.filter (matches q) rs).
Proof.
  intros Hg. induction rs as [|r rs IH]; simpl; [reflexivity|].
  rewrite Hg. destruct (matches q r); simpl; now rewrite IH.
Qed.

Lemma matches_set_password q p r :
  matches q (User.set_password p r) = matches q r.
Proof. now destruct q. Qed.

Lemma matches_set_temp_password q p r :
  matches q (User.set_temp_password p r) = matches q r.
Proof. now destruct q. Qed.

Lemma matches_set_is_verified q v r :
  matches q (User.set_is_verified v r) = matches q r.
Proof. now destruct q. Qed.

(** A conditional update keeps what a query matches when the update does. *)
Lemma matches_update q i (f : User.t -> User.t) r :
  (forall x, matches q (f x) = matches q x) ->
  matches q (if Z.eqb (User.id r) i then f r else r) = matches q r.
Proof. intros Hf. now destruct (Z.eqb (User.id r) i). Qed.

(** ** Login *)

Lemma login_user_unverified `{Config} `{CryptContext} now form_data w u :
  List.filter (matches (SelectByUsername (form_username form_data))) (rows w) = [u] ->
  User.is_verified u = false ->
  response_status 200 (fst (login_user now form_data w)) = HTTP_401_UNAUTHORIZED.
Proof.
  intros Hq Hv. unfold login_user, bind, UserService.get_user_by_username,
    UserRepository.get_user_by_username.
  rewrite execute_eq, Hq. simpl. unfold lift. now rewrite Hv.
Qed.

Lemma login_user_bad_password `{Config} `{CryptContext} now form_data w u :
  List.filter (matches (SelectByUsername (form_username form_data))) (rows w) = [u] ->
  call_on_instance Hash.verify_password
    [PyStr (form_password form_data); PyOptStr (User.password u)] = Ok false ->
  response_status 200 (fst (login_user now form_data w)) = HTTP_401_UNAUTHORIZED.
Proof.
  intros Hq Hp. unfold login_user, bind, UserService.get_user_by_username,
    UserRepository.get_user_by_username.
  rewrite execute_eq, Hq. simpl. unfold lift.
  destruct (User.is_verified u); simpl; [|reflexivity].
  now rewrite Hp.
Qed.

Lemma login_user_ok `{Config} `{CryptContext} now form_data w u :
  List.filter (matches (SelectByUsername (form_username form_data))) (rows w) = [u] ->
  User.is_verified u = true ->
  call_on_instance Hash.verify_password
    [PyStr (form_password form_data); PyOptStr (User.password u)] = Ok true ->
  login_user now form_data w
  = (Ok {| access_token := create_access_token now (sub_only (User.username u)) None;
           token_type := "bearer" |},
     logged (SelectByUsername (form_username form_data)) w).
Proof.
  intros Hq Hv Hp. unfold login_user, bind, UserService.get_user_by_username,
    UserRepository.get_user_by_username.
  rewrite execute_eq, Hq. simpl. unfold lift. rewrite Hv. simpl.
  now rewrite Hp.
Qed.

(** C3: a login for a username that no principal has does not end in
    Unauthorized: [user.is_verified] is read on [None] before the test
    [not user] is reached, the route raises [AttributeError] and the client
    gets status 500 instead of 401. *)
Theorem login_user_missing_principal `{Config} `{CryptContext} now form_data w :
  List.filter (matches (SelectByUsername (form_username form_data))) (rows w) = [] ->
  fst (login_user now form_data w) = Raise (AttributeError "is_verified") /\
  response_status 200 (fst (login_user now form_data w)) <> HTTP_401_UNAUTHORIZED.
Proof.
  intros Hq.
  assert (E : fst (login_user now form_data w) = Raise (AttributeError "is_verified")).
  { unfold login_user, bind, UserService.get_user_by_username,
      UserRepository.get_user_by_username.
    rewrite execute_eq, Hq. reflexivity. }
  split; [exact E|]. rewrite E. simpl. discriminate.
Qed.

Lemma login_user_missing_principal_witness :
  List.filter (matches (SelectByUsername "bob")) (rows demo_world) = [] /\
  fst (@login_user demo_config demo_crypt 100
         {| form_username := "bob"; form_password := "pw" |} demo_world)
  = Raise (AttributeError "is_verified").
Proof.
  split; [reflexivity|].
  apply (@login_user_missing_principal demo_config demo_crypt 100
           {| form_username := "bob"; form_password := "pw" |} demo_world).
  reflexivity.
Defined.

(** ** ForgotPassword *)

(** C1: for a principal that the identifier resolves to, with the right old
    password and a new password that passes the same-password test, the
    route does not complete: [Hash.get_password_hash] is called on the class
    with one argument, the call raises [TypeError], no digest is stored in
    [temp_password] and no mail task is queued. *)
Theorem forgot_password_raises_TypeError `{Config} `{CryptContext} data base_url w u :
  (fst (UserService.get_user_by_email (user_data data) w) = Ok (Some u) \/
   (fst (UserService.get_user_by_email (user_data data) w) = Ok None /\
    fst (UserService.get_user_by_username (user_data data) w) = Ok (Some u))) ->
  call_on_instance Hash.verify_password
    [PyStr (old_password data); PyOptStr (User.password u)] = Ok true ->
  Some (new_password data) <> User.password u ->
  (exists msg, fst (forgot_password data base_url w) = Raise (TypeError msg)) /\
  rows (snd (forgot_password data base_url w)) = rows w /\
  background_tasks (snd (forgot_password data base_url w)) = background_tasks w.
Proof.
  intros Hres Hold Hnew.
  unfold forgot_password, bind, UserService.get_user_by_email,
    UserService.get_user_by_username, UserRepository.get_user_by_email,
    UserRepository.get_user_by_username in *.
  rewrite !execute_eq in *. simpl in Hres.
  destruct Hres as [He | [He Hu]].
  - rewrite He. unfold ret, lift. rewrite Hold. simpl.
    rewrite bool_decide_eq_false_2 by exact Hnew.
    simpl. eauto.
  - rewrite He. rewrite execute_eq. simpl. rewrite Hu.
    unfold ret, lift. rewrite Hold. simpl.
    rewrite bool_decide_eq_false_2 by exact Hnew.
    simpl. eauto.
Qed.

Lemma forgot_password_raises_TypeError_witness :
  (exists msg,
     fst (@forgot_password demo_config demo_crypt
            {| user_data := "alice"; old_password := "pw1"; new_password := "pw2" |}
            "http://testserver/" demo_world) = Raise (TypeError msg)) /\
  User.temp_password <$> rows (snd (@forgot_password demo_config demo_crypt
            {| user_data := "alice"; old_password := "pw1"; new_password := "pw2" |}
            "http://testserver/" demo_world)) = [None].
Proof.
  destruct (@forgot_password_raises_TypeError demo_config demo_crypt
              {| user_data := "alice"; old_password := "pw1"; new_password := "pw2" |}
              "http://testserver/" demo_world alice) as (Hraise & Hrows & _).
  - right. split; reflexivity.
  - reflexivity.
  - discriminate.
  - split; [exact Hraise|]. rewrite Hrows. reflexivity.
Defined.

(** ** ResetPassword *)

Lemma matches_promote q i staged r :
  matches q (promote_temp_password i staged r) = matches q r.
Proof.
  unfold promote_temp_password. destruct (Z.eqb (User.id r) i); [|reflexivity].
  now destruct q.
Qed.

Lemma filter_singleton_matches q rs u :
  List.filter (matches q) rs = [u] -> matches q u = true /\ In u rs.
Proof.
  intros Hq. assert (Hin : In u (List.filter (matches q) rs)) by (rewrite Hq; now left).
  apply filter_In in Hin. tauto.
Qed.

(** The route on a token that decodes to the email of exactly one row. *)
Lemma reset_password_run `{Config} now token email w u :
  get_email_from_token now token = Ok email ->
  List.filter (matches (SelectByEmail email)) (rows w) = [u] ->
  fst (reset_password now token w) = Ok "Password successfully changed" /\
  rows (snd (reset_password now token w))
  = map (promote_temp_password (User.id u) (User.temp_password u)) (rows w) /\
  next_id (snd (reset_password now token w)) = next_id w /\
  redis_db (snd (reset_password now token w)) = redis_db w.
Proof.
  intros Htok Hq.
  destruct (filter_singleton_matches _ _ _ Hq) as [Hm _].
  simpl in Hm. apply String.eqb_eq in Hm.
  unfold reset_password, bind, lift. rewrite Htok.
  unfold UserService.get_user_by_email, UserRepository.get_user_by_email.
  rewrite execute_eq, Hq. simpl.
  unfold UserService.set_new_password, UserRepository.set_new_password,
    UserService.set_temp_password, UserRepository.set_temp_password,
    UserRepository.get_user_by_email, bind.
  rewrite execute_eq. simpl rows. rewrite Hm, Hq. simpl.
  rewrite filter_matches_map
    by (intros r; apply matches_update; intros x; apply matches_set_password).
  rewrite Hq. simpl. rewrite Z.eqb_refl. simpl.
  repeat split; try reflexivity.
  rewrite map_map. apply map_ext. intros r.
  unfold promote_temp_password.
  destruct (Z.eqb (User.id r) (User.id u)) eqn:E; simpl; now rewrite E.
Qed.

Lemma reset_password_row `{Config} now token email w u :
  get_email_from_token now token = Ok email ->
  List.filter (matches (SelectByEmail email)) (rows w) = [u] ->
  List.filter (matches (SelectByEmail email)) (rows (snd (reset_password now token w)))
  = [User.set_temp_password None (User.set_password (User.temp_password u) u)].
Proof.
  intros Htok Hq.
  destruct (reset_password_run now token email w u Htok Hq) as (_ & Hrows & _).
  rewrite Hrows, filter_matches_map by (intros r; apply matches_promote).
  rewrite Hq. simpl. unfold promote_temp_password. now rewrite Z.eqb_refl.
Qed.

(** C8: with a staged digest in [temp_password] and a valid purpose token
    for the principal's email, the reset route succeeds and leaves the
    principal with [password] equal to the staged digest and [temp_password]
    null; the other fields keep their values. *)
Theorem reset_password_promotes_temp_password `{Config} now token payload w u staged :
  jwt_decode now token JWT_SECRET [JWT_ALGORITHM] = Ok payload ->
  sub payload = Some (User.email u) ->
  List.filter (matches (SelectByEmail (User.email u))) (rows w) = [u] ->
  User.temp_password u = Some staged ->
  fst (reset_password now token w) = Ok "Password successfully changed" /\
  exists u',
    List.filter (matches (SelectByEmail (User.email u)))
      (rows (snd (reset_password now token w))) = [u'] /\
    User.password u' = Some staged /\
    User.temp_password u' = None /\
    u' = User.set_temp_password None (User.set_password (Some staged) u).
Proof.
  intros Hd Hs Hq Ht.
  pose proof (get_email_from_token_decoded now token payload _ Hd Hs) as Htok.
  split.
  - now destruct (reset_password_run now token _ w u Htok Hq).
  - eexists. rewrite (reset_password_row now token _ w u Htok Hq), Ht.
    repeat split; reflexivity.
Qed.

Lemma reset_password_promotes_temp_password_witness :
  fst (@reset_password demo_config 60 alice_mail_token pending_world)
  = Ok "Password successfully changed" /\
  exists u',
    List.filter (matches (SelectByEmail "alice@x.com"))
      (rows (snd (@reset_password demo_config 60 alice_mail_token pending_world))) = [u'] /\
    User.password u' = Some "$2b$pw2" /\
    User.temp_password u' = None /\
    u' = User.set_temp_password None (User.set_password (Some "$2b$pw2") alice_pending).
Proof.
  apply (@reset_password_promotes_temp_password demo_config 60 alice_mail_token
           {| sub := Some "alice@x.com"; iat := Some 0; exp := Some 604800 |}
           pending_world alice_pending "$2b$pw2"); reflexivity.
Defined.

(** A login never succeeds against a null password. *)
Lemma login_user_null_password `{Config} `{CryptContext} now form_data w :
  (forall x,
     List.filter (matches (SelectByUsername (form_username form_data))) (rows w) = [x] ->
     User.password x = None) ->
  exists e, fst (login_user now form_data w) = Raise e.
Proof.
  intros Hnull.
  unfold login_user, bind, UserService.get_user_by_username,
    UserRepository.get_user_by_username.
  rewrite execute_eq.
  destruct (List.filter (matches (SelectByUsername (form_username form_data))) (rows w))
    as [|x [|y l]] eqn:Hq.
  - simpl. eauto.
  - simpl. unfold lift.
    destruct (User.is_verified x); simpl; [|eauto].
    rewrite (Hnull x eq_refl). simpl. eauto.
  - simpl. eauto.
Qed.

(** C2: a valid purpose token for the email of a principal with no staged
    digest makes the reset route succeed and write null into [password];
    from then on every login with that principal's username fails, with
    Unauthorized when the username is that of this row only. *)
Theorem reset_password_without_staged_digest `{Config} `{CryptContext}
  now token payload w u :
  jwt_decode now token JWT_SECRET [JWT_ALGORITHM] = Ok payload ->
  sub payload = Some (User.email u) ->
  List.filter (matches (SelectByEmail (User.email u))) (rows w) = [u] ->
  User.temp_password u = None ->
  fst (reset_password now token w) = Ok "Password successfully changed" /\
  (exists u',
     List.filter (matches (SelectByEmail (User.email u)))
       (rows (snd (reset_password now token w))) = [u'] /\
     User.password u' = None /\
     u' = User.set_temp_password None (User.set_password None u)) /\
  (forall later form_data,
     form_username form_data = User.username u ->
     List.filter (matches (SelectByUsername (User.username u))) (rows w) = [u] ->
     response_status 200 (fst (login_user later form_data (snd (reset_password now token w))))
     = HTTP_401_UNAUTHORIZED) /\
  (forall later form_data,
     form_username form_data = User.username u ->
     exists e, fst (login_user later form_data (snd (reset_password now token w))) = Raise e).
Proof.
  intros Hd Hs Hq Ht.
  pose proof (get_email_from_token_decoded now token payload _ Hd Hs) as Htok.
  destruct (reset_password_run now token _ w u Htok Hq) as (Hok & Hrows & _).
  split; [exact Hok|]. split; [|split].
  - eexists. rewrite (reset_password_row now token _ w u Htok Hq), Ht.
    repeat split; reflexivity.
  - intros later form_data Hname Huniq.
    assert (Hq' : List.filter (matches (SelectByUsername (form_username form_data)))
                    (rows (snd (reset_password now token w)))
                  = [User.set_temp_password None (User.set_password None u)]).
    { rewrite Hrows, filter_matches_map by (intros r; apply matches_promote).
      rewrite Hname, Huniq. simpl. unfold promote_temp_password.
      now rewrite Z.eqb_refl, Ht. }
    destruct (User.is_verified u) eqn:Hv.
    + eapply login_user_bad_password; [exact Hq'|reflexivity].
    + eapply login_user_unverified; [exact Hq'|exact Hv].
  - intros later form_data Hname.
    destruct (filter_singleton_matches _ _ _ Hq) as [_ Hin].
    apply login_user_null_password. intros x.
    rewrite Hrows, filter_matches_map by (intros r; apply matches_promote).
    rewrite Hname.
    assert (Hu : In u (List.filter (matches (SelectByUsername (User.username u))) (rows w))).
    { apply filter_In. split; [exact Hin|]. simpl. apply String.eqb_refl. }
    destruct (List.filter (matches (SelectByUsername (User.username u))) (rows w))
      as [|r0 [|r1 l]]; simpl in *; try discriminate; try tauto.
    destruct Hu as [->|[]]. intros [= <-].
    unfold promote_temp_password. rewrite Z.eqb_refl, Ht. reflexivity.
Qed.

Lemma reset_password_without_staged_digest_witness :
  fst (@reset_password demo_config 60 alice_mail_token demo_world)
  = Ok "Password successfully changed" /\
  User.password <$> rows (snd (@reset_password demo_config 60 alice_mail_token demo_world))
  = [None] /\
  response_status 200
    (fst (@login_user demo_config demo_crypt 120
            {| form_username := "alice"; form_password := "pw1" |}
            (snd (@reset_password demo_config 60 alice_mail_token demo_world))))
  = HTTP_401_UNAUTHORIZED.
Proof.
  destruct (@reset_password_without_staged_digest demo_config demo_crypt 60
              alice_mail_token
              {| sub := Some "alice@x.com"; iat := Some 0; exp := Some 604800 |}
              demo_world alice) as (Hok & _ & Hlogin & _); try reflexivity.
  split; [exact Hok|]. split; [reflexivity|].
  apply Hlogin; reflexivity.
Defined.

(** The token of a confirmation mail passes the reset route as well: the two
    mails carry the same claims. *)
Lemma confirmation_token_accepted_by_reset `{Config} issued now username host w u :
  now <= issued + 7 * seconds_per_day ->
  List.filter (matches (SelectByEmail (User.email u))) (rows w) = [u] ->
  fst (reset_password now
         (task_token issued (send_email_for_confirm (User.email u) username host)) w)
  = Ok "Password successfully changed".
Proof.
  intros Hle Hq.
  eapply reset_password_run; [|exact Hq].
  now apply email_token_decodes.
Qed.

(** ** Registration *)

Lemma register_user_email_taken `{Config} `{CryptContext} user_data base_url avatar w u :
  List.filter (matches (SelectByEmail (uc_email user_data))) (rows w) = [u] ->
  register_user user_data base_url avatar w
  = (Raise (HTTPException HTTP_409_CONFLICT "User has already exist"),
     logged (SelectByEmail (uc_email user_data)) w).
Proof.
  intros Hq. unfold register_user, bind, UserService.get_user_by_email,
    UserRepository.get_user_by_email.
  rewrite execute_eq, Hq. reflexivity.
Qed.

Lemma existsb_filter_nil {A} (f : A -> bool) l :
  List.filter f l = [] -> existsb f l = false.
Proof.
  induction l as [|a l IH]; simpl; [reflexivity|].
  destruct (f a); [discriminate|exact IH].
Qed.

Lemma existsb_filter_cons {A} (f : A -> bool) l x xs :
  List.filter f l = x :: xs -> existsb f l = true.
Proof.
  induction l as [|a l IH]; simpl; [discriminate|].
  destruct (f a); [reflexivity|exact IH].
Qed.

(** The route when no row has the email: the INSERT decides. *)
Lemma register_user_email_free `{Config} `{CryptContext} user_data base_url avatar w :
  List.filter (matches (SelectByEmail (uc_email user_data))) (rows w) = [] ->
  (exists e, fst (register_user user_data base_url avatar w) = Raise (IntegrityError e) /\
             rows (snd (register_user user_data base_url avatar w)) = rows w /\
             existsb (fun r => String.eqb (User.username r) (uc_username user_data))
               (rows w) = true) \/
  (exists new_user,
     fst (register_user user_data base_url avatar w) = Ok new_user /\
     rows (snd (register_user user_data base_url avatar w)) = (rows w ++ [new_user])%list /\
     new_user = {| User.id := next_id w;
                   User.username := uc_username user_data;
                   User.email := uc_email user_data;
                   User.password := Some (pwd_hash (uc_password user_data));
                   User.is_verified := false;
                   User.role := uc_role user_data;
                   User.avatar_url := avatar;
                   User.temp_password := None |} /\
     existsb (fun r => String.eqb (User.username r) (uc_username user_data))
       (rows w) = false).
Proof.
  intros Hq. unfold register_user, bind, UserService.get_user_by_email,
    UserRepository.get_user_by_email.
  rewrite execute_eq, Hq. simpl.
  unfold UserService.create_user, UserRepository.create_user, add_commit_refresh.
  simpl.
  destruct (existsb (fun r => String.eqb (User.username r) (uc_username user_data))
              (rows w)) eqn:Hu.
  - left. simpl. eauto.
  - right.
    assert (He : existsb (fun r => String.eqb (User.email r) (uc_email user_data))
                   (rows w) = false) by (now apply existsb_filter_nil).
    rewrite He. simpl. eexists. repeat split; reflexivity.
Qed.

(** C4, as amended: the route answers Conflict (409) exactly when one row
    has the requested email, and then persists nothing; it makes no test on
    the username. *)
Theorem register_user_conflict_iff_email_taken `{Config} `{CryptContext}
  user_data base_url avatar w :
  (response_status 201 (fst (register_user user_data base_url avatar w))
   = HTTP_409_CONFLICT
   <-> exists u, List.filter (matches (SelectByEmail (uc_email user_data))) (rows w) = [u]) /\
  (response_status 201 (fst (register_user user_data base_url avatar w))
   = HTTP_409_CONFLICT
   -> rows (snd (register_user user_data base_url avatar w)) = rows w).
Proof.
  destruct (List.filter (matches (SelectByEmail (uc_email user_data))) (rows w))
    as [|u [|u' l]] eqn:Hq.
  - destruct (register_user_email_free user_data base_url avatar w Hq)
      as [(e & -> & _) | (nu & -> & _)]; simpl;
      (split; [split; [discriminate|intros [? [=]]]|discriminate]).
  - rewrite (register_user_email_taken user_data base_url avatar w u Hq). simpl.
    split; [split; eauto|reflexivity].
  - unfold register_user, bind, UserService.get_user_by_email,
      UserRepository.get_user_by_email.
    rewrite execute_eq, Hq. simpl.
    split; [split; [discriminate|intros [? [=]]]|discriminate].
Qed.

(** C4, the claim as it stands fails: a second registration with alice's
    username and a fresh email is not answered with Conflict. *)
Lemma register_user_taken_username_no_conflict :
  existsb (fun r => String.eqb (User.username r) "alice") (rows demo_world) = true /\
  response_status 201
    (fst (@register_user demo_config demo_crypt
            {| uc_username := "alice"; uc_email := "alice2@x.com";
               uc_password := "pw"; uc_role := USER |}
            "http://testserver/" None demo_world))
  <> HTTP_409_CONFLICT.
Proof. split; [reflexivity|]. vm_compute. discriminate. Qed.

(** ** ConfirmEmail *)

(** C6, as amended: a token that does not decode (malformed, wrong
    algorithm, bad signature, expired) is answered with status 422 and one
    fixed detail, whichever check failed, and nothing is looked up; a token
    that decodes to an email that no principal has is answered with 400. *)
Theorem confirmed_email_failures `{Config} now token w :
  (forall e,
     jwt_decode now token JWT_SECRET [JWT_ALGORITHM] = Raise e ->
     confirmed_email now token w
     = (Raise (HTTPException HTTP_422_UNPROCESSABLE_ENTITY bad_token_detail), w)) /\
  (forall payload email,
     jwt_decode now token JWT_SECRET [JWT_ALGORITHM] = Ok payload ->
     sub payload = Some email ->
     List.filter (matches (SelectByEmail email)) (rows w) = [] ->
     confirmed_email now token w
     = (Raise (HTTPException HTTP_400_BAD_REQUEST "Verification error"),
        logged (SelectByEmail email) w)).
Proof.
  split.
  - intros e Hd. pose proof (jwt_decode_raises_JWTError _ _ _ _ _ Hd) as ->.
    unfold confirmed_email, bind, lift, get_email_from_token. now rewrite Hd.
  - intros payload email Hd Hs Hq.
    unfold confirmed_email, bind, lift.
    rewrite (get_email_from_token_decoded now token payload email Hd Hs).
    unfold UserService.get_user_by_email, UserRepository.get_user_by_email.
    rewrite execute_eq, Hq. reflexivity.
Qed.

Lemma confirmed_email_failures_witness :
  response_status 200
    (fst (@confirmed_email demo_config 60 (Jws "HS256" "forged" (sub_only "alice@x.com"))
            demo_world)) = 422 /\
  response_status 200
    (fst (@confirmed_email demo_config 60
            (@create_email_token demo_config 0 (sub_only "nobody@x.com")) demo_world))
  = 400.
Proof.
  destruct (@confirmed_email_failures demo_config 60
              (Jws "HS256" "forged" (sub_only "alice@x.com")) demo_world) as [H422 _].
  destruct (@confirmed_email_failures demo_config 60
              (@create_email_token demo_config 0 (sub_only "nobody@x.com")) demo_world)
    as [_ H400].
  split.
  - rewrite (H422 JWTError); reflexivity.
  - rewrite (H400 {| sub := Some "nobody@x.com"; iat := Some 0; exp := Some 604800 |}
               "nobody@x.com"); reflexivity.
Defined.

(** C6, the claim as it stands fails: a token with a forged signature is
    answered with 422, not with 400. *)
Lemma confirmed_email_bad_signature_422 :
  jwt_decode 60 (Jws "HS256" "forged" (sub_only "alice@x.com"))
    (@JWT_SECRET demo_config) [@JWT_ALGORITHM demo_config] = Raise JWTError /\
  response_status 200
    (fst (@confirmed_email demo_config 60 (Jws "HS256" "forged" (sub_only "alice@x.com"))
            demo_world))
  <> HTTP_400_BAD_REQUEST.
Proof. split; [reflexivity|]. vm_compute. discriminate. Qed.

(** One call for a principal that is verified already. *)
Lemma confirmed_email_already_verified `{Config} now token payload w u :
  jwt_decode now token JWT_SECRET [JWT_ALGORITHM] = Ok payload ->
  sub payload = Some (User.email u) ->
  List.filter (matches (SelectByEmail (User.email u))) (rows w) = [u] ->
  User.is_verified u = true ->
  confirmed_email now token w
  = (Ok "Ваша електронна пошта вже підтверджена",
     logged (SelectByEmail (User.email u)) w).
Proof.
  intros Hd Hs Hq Hv. unfold confirmed_email, bind, lift.
  rewrite (get_email_from_token_decoded now token payload _ Hd Hs).
  unfold UserService.get_user_by_email, UserRepository.get_user_by_email.
  rewrite execute_eq, Hq. simpl. now rewrite Hv.
Qed.

(** Any number of calls for a principal that is verified already. *)
Lemma confirm_all_already_verified `{Config} calls u :
  Forall (fun c => exists payload,
            jwt_decode (fst c) (snd c) JWT_SECRET [JWT_ALGORITHM] = Ok payload /\
            sub payload = Some (User.email u)) calls ->
  User.is_verified u = true ->
  forall w,
    List.filter (matches (SelectByEmail (User.email u))) (rows w) = [u] ->
    Forall (fun r => r = Ok "Ваша електронна пошта вже підтверджена")
      (fst (confirm_all calls w)) /\
    length (fst (confirm_all calls w)) = length calls /\
    rows (snd (confirm_all calls w)) = rows w /\
    next_id (snd (confirm_all calls w)) = next_id w /\
    redis_db (snd (confirm_all calls w)) = redis_db w /\
    background_tasks (snd (confirm_all calls w)) = background_tasks w.
Proof.
  intros Hcalls Hv. induction Hcalls as [|[now token] calls (payload & Hd & Hs) _ IH];
    intros w Hq.
  - simpl. repeat split; constructor.
  - simpl in Hd. cbn [confirm_all].
    rewrite (confirmed_email_already_verified now token payload w u Hd Hs Hq Hv).
    specialize (IH (logged (SelectByEmail (User.email u)) w) Hq).
    destruct (confirm_all calls (logged (SelectByEmail (User.email u)) w)) as [rs w''].
    simpl in *. destruct IH as (Hall & Hlen & Hrows & Hid & Hredis & Htasks).
    repeat split; auto.
Qed.

(** C10: for a verified principal, ConfirmEmail with a valid purpose token
    for the principal's email succeeds with the informational message and
    changes no row; any sequence of such calls, each with a valid token,
    succeeds call by call and leaves the table, the cache and the task queue
    as they were. *)
Theorem confirmed_email_idempotent `{Config} now token payload calls w u :
  jwt_decode now token JWT_SECRET [JWT_ALGORITHM] = Ok payload ->
  sub payload = Some (User.email u) ->
  Forall (fun c => exists payload,
            jwt_decode (fst c) (snd c) JWT_SECRET [JWT_ALGORITHM] = Ok payload /\
            sub payload = Some (User.email u)) calls ->
  List.filter (matches (SelectByEmail (User.email u))) (rows w) = [u] ->
  User.is_verified u = true ->
  fst (confirmed_email now token w) = Ok "Ваша електронна пошта вже підтверджена" /\
  rows (snd (confirmed_email now token w)) = rows w /\
  Forall (fun r => r = Ok "Ваша електронна пошта вже підтверджена")
    (fst (confirm_all calls (snd (confirmed_email now token w)))) /\
  length (fst (confirm_all calls (snd (confirmed_email now token w)))) = length calls /\
  rows (snd (confirm_all calls (snd (confirmed_email now token w)))) = rows w.
Proof.
  intros Hd Hs Hcalls Hq Hv.
  rewrite (confirmed_email_already_verified now token payload w u Hd Hs Hq Hv).
  simpl. split; [reflexivity|]. split; [reflexivity|].
  destruct (confirm_all_already_verified calls u Hcalls Hv
              (logged (SelectByEmail (User.email u)) w) Hq)
    as (Hall & Hlen & Hrows & _).
  auto.
Qed.

Lemma confirmed_email_idempotent_witness :
  fst (@confirmed_email demo_config 60 alice_mail_token demo_world)
  = Ok "Ваша електронна пошта вже підтверджена" /\
  fst (@confirm_all demo_config [(70, alice_mail_token); (80, alice_mail_token)]
         (snd (@confirmed_email demo_config 60 alice_mail_token demo_world)))
  = [Ok "Ваша електронна пошта вже підтверджена";
     Ok "Ваша електронна пошта вже підтверджена"] /\
  rows (snd (@confirm_all demo_config [(70, alice_mail_token); (80, alice_mail_token)]
               (snd (@confirmed_email demo_config 60 alice_mail_token demo_world))))
  = [alice].
Proof.
  destruct (@confirmed_email_idempotent demo_config 60 alice_mail_token
              {| sub := Some "alice@x.com"; iat := Some 0; exp := Some 604800 |}
              [(70, alice_mail_token); (80, alice_mail_token)] demo_world alice)
    as (Hfirst & _ & _ & _ & Hrows); try reflexivity.
  - repeat constructor;
      exists {| sub := Some "alice@x.com"; iat := Some 0; exp := Some 604800 |};
      split; reflexivity.
  - split; [exact Hfirst|]. split; [reflexivity|exact Hrows].
Defined.

(** ** The identity resolver *)

Lemma token_subject_nonempty `{Config} now token username :
  token_subject now token = Ok username -> username <> "".
Proof.
  unfold token_subject.
  destruct (jwt_decode now token JWT_SECRET [JWT_ALGORITHM]) as [payload|e] eqn:Hd; simpl.
  - destruct (sub payload) as [s|]; simpl; [|discriminate].
    destruct (String.eqb_spec s ""); simpl; [discriminate|].
    now intros [= <-].
  - pose proof (jwt_decode_raises_JWTError _ _ _ _ _ Hd) as ->. discriminate.
Qed.

(** The subject does not depend on the time at which a token is decoded, as
    long as it decodes. *)
Lemma token_subject_later `{Config} t0 t1 token username payload :
  token_subject t0 token = Ok username ->
  jwt_decode t1 token JWT_SECRET [JWT_ALGORITHM] = Ok payload ->
  token_subject t1 token = Ok username.
Proof.
  unfold token_subject. intros H0 H1. rewrite H1.
  destruct (jwt_decode t0 token JWT_SECRET [JWT_ALGORITHM]) as [p0|e] eqn:Hd.
  - assert (p0 = payload) as ->; [|exact H0].
    unfold jwt_decode in Hd, H1. destruct token as [raw|alg k p]; [discriminate|].
    destruct (negb (bool_decide (alg ∈ [JWT_ALGORITHM]))); [discriminate|].
    destruct (negb (String.eqb k JWT_SECRET)); [discriminate|].
    destruct (exp p) as [x|].
    + destruct (Z.ltb x t0); [discriminate|].
      destruct (Z.ltb x t1); [discriminate|]. congruence.
    + congruence.
  - pose proof (jwt_decode_raises_JWTError _ _ _ _ _ Hd) as ->. discriminate.
Qed.

(** A read error of the cache leaves the resolver as it is. *)
Lemma get_current_user_read_error `{Config} now token username w :
  token_subject now token = Ok username ->
  reads_fail (redis_db w) = true ->
  get_current_user now token w = (Raise RedisError, w).
Proof.
  intros Hs Hr. unfold get_current_user, bind, lift. rewrite Hs.
  unfold redis_get. now rewrite Hr.
Qed.

(** The resolver on a cache miss. *)
Lemma get_current_user_miss `{Config} now token username w u :
  token_subject now token = Ok username ->
  fst (redis_get now (cache_key_of username) w) = Ok None ->
  List.filter (matches (SelectByUsername username)) (rows w) = [u] ->
  get_current_user now token w
  = if writes_fail (redis_db w)
    then (Raise RedisError, logged (SelectByUsername username) w)
    else (Ok u, with_redis (cached now u (redis_db w))
                  (logged (SelectByUsername username) w)).
Proof.
  intros Hs Hg Hq.
  destruct (filter_singleton_matches _ _ _ Hq) as [Hm _].
  simpl in Hm. apply String.eqb_eq in Hm.
  unfold get_current_user, bind, lift. rewrite Hs.
  assert (Hget : redis_get now (cache_key_of username) w = (Ok None, w)).
  { revert Hg. unfold redis_get. destruct (reads_fail (redis_db w)); [discriminate|].
    destruct (entries (redis_db w) !! cache_key_of username) as [[v e]|];
      [|reflexivity].
    destruct (Z.ltb now e); [discriminate|reflexivity]. }
  rewrite Hget. simpl. rewrite Hq. simpl.
  unfold redis_set, cached. simpl. rewrite Hm.
  now destruct (writes_fail (redis_db w)).
Qed.

(** The resolver on a cache hit whose id resolves. *)
Lemma get_current_user_hit `{Config} now token username w v expires i u :
  token_subject now token = Ok username ->
  reads_fail (redis_db w) = false ->
  entries (redis_db w) !! cache_key_of username = Some (v, expires) ->
  now < expires ->
  v <> "" ->
  py_int v = Ok i ->
  List.filter (matches (SelectById i)) (rows w) = [u] ->
  get_current_user now token w = (Ok u, logged (SelectById i) w).
Proof.
  intros Hs Hr He Hlt Hv Hi Hq.
  unfold get_current_user, bind, lift. rewrite Hs.
  unfold redis_get. rewrite Hr, He.
  destruct (Z.ltb_spec now expires); [|lia].
  simpl. destruct (String.eqb_spec v ""); [contradiction|]. simpl.
  rewrite Hi. rewrite execute_eq, Hq. reflexivity.
Qed.

Lemma filter_by_primary_key rs u :
  List.NoDup (map User.id rs) -> In u rs ->
  List.filter (matches (SelectById (User.id u))) rs = [u].
Proof.
  induction rs as [|r rs IH]; simpl; [tauto|].
  intros Hnd [->|Hin].
  - rewrite Z.eqb_refl. f_equal.
    apply List.NoDup_cons_iff in Hnd. destruct Hnd as [Hnd _].
    clear IH. induction rs as [|x rs IHrs]; simpl; [reflexivity|].
    destruct (Z.eqb_spec (User.id x) (User.id u)) as [E|_].
    + exfalso. apply Hnd. simpl. left. exact E.
    + apply IHrs. intros Hin. apply Hnd. simpl. now right.
  - destruct (Z.eqb_spec (User.id r) (User.id u)) as [E|_].
    + exfalso. apply List.NoDup_cons_iff in Hnd. apply Hnd. rewrite E.
      now apply in_map.
    + apply IH; [now apply List.NoDup_cons_iff in Hnd|exact Hin].
Qed.

(** C5, as amended: an error of the cache backend is not recovered.  A
    failing GET ends the resolution with the backend's error before the
    table is consulted; on a cache miss the username lookup is made, and a
    failing SET then ends the resolution with the backend's error although
    the principal was found.  In neither case is the error turned into
    Unauthorized.  With a SET that works, the miss is served from the
    table. *)
Theorem get_current_user_cache_errors_propagate `{Config} now token username w :
  token_subject now token = Ok username ->
  (reads_fail (redis_db w) = true ->
     get_current_user now token w = (Raise RedisError, w)) /\
  (forall u,
     fst (redis_get now (cache_key_of username) w) = Ok None ->
     List.filter (matches (SelectByUsername username)) (rows w) = [u] ->
     (writes_fail (redis_db w) = true ->
        fst (get_current_user now token w) = Raise RedisError) /\
     (writes_fail (redis_db w) = false ->
        fst (get_current_user now token w) = Ok u)).
Proof.
  intros Hs. split.
  - intros Hr. exact (get_current_user_read_error now token username w Hs Hr).
  - intros u Hg Hq.
    rewrite (get_current_user_miss now token username w u Hs Hg Hq).
    split; intros ->; reflexivity.
Qed.

Lemma get_current_user_cache_errors_propagate_witness :
  @get_current_user demo_config 200 alice_session_token cache_down_world
  = (Raise RedisError, cache_down_world) /\
  fst (@get_current_user demo_config 200 alice_session_token cache_readonly_world)
  = Raise RedisError /\
  fst (@get_current_user demo_config 200 alice_session_token demo_world) = Ok alice.
Proof.
  destruct (@get_current_user_cache_errors_propagate demo_config 200
              alice_session_token "alice" cache_down_world eq_refl) as [Hread _].
  destruct (@get_current_user_cache_errors_propagate demo_config 200
              alice_session_token "alice" cache_readonly_world eq_refl) as [_ Hwrite].
  destruct (@get_current_user_cache_errors_propagate demo_config 200
              alice_session_token "alice" demo_world eq_refl) as [_ Hmiss].
  split; [apply Hread; reflexivity|]. split.
  - apply (Hwrite alice); reflexivity.
  - apply (Hmiss alice); reflexivity.
Defined.

(** C5, the claim as it stands fails: with a valid token for an existing
    principal, the resolution fails when the cache GET fails, and it fails
    when only the cache SET fails. *)
Lemma get_current_user_fails_with_cache :
  @token_subject demo_config 200 alice_session_token = Ok "alice" /\
  List.filter (matches (SelectByUsername "alice")) (rows cache_down_world) = [alice] /\
  fst (@get_current_user demo_config 200 alice_session_token cache_down_world)
  = Raise RedisError /\
  fst (@get_current_user demo_config 200 alice_session_token cache_readonly_world)
  = Raise RedisError.
Proof. repeat split; reflexivity. Qed.

(** [get_current_user] with its second half named. *)
Lemma get_current_user_unfold `{Config} now token :
  get_current_user now token
  = (username <- lift (token_subject now token) ;;
     user_id <- redis_get now (cache_key_of username) ;;
     cached <- (if py_bool_str user_id then
                  i <- lift (py_int (default "" user_id)) ;;
                  execute (SelectById i)
                else ret None) ;;
     match cached with
     | Some user => ret user
     | None => username_lookup now username
     end).
Proof. reflexivity. Qed.

Lemma username_lookup_ok_inv now username w u :
  fst (username_lookup now username w) = Ok u ->
  List.filter (matches (SelectByUsername username)) (rows w) = [u] /\
  writes_fail (redis_db w) = false /\
  rows (snd (username_lookup now username w)) = rows w /\
  redis_db (snd (username_lookup now username w)) = cached now u (redis_db w).
Proof.
  unfold username_lookup, bind. rewrite execute_eq.
  destruct (List.filter (matches (SelectByUsername username)) (rows w))
    as [|x [|y l]] eqn:Hq; simpl; try discriminate.
  destruct (filter_singleton_matches _ _ _ Hq) as [Hm _].
  simpl in Hm. apply String.eqb_eq in Hm.
  unfold redis_set, cached. simpl.
  destruct (writes_fail (redis_db w)) eqn:Hw; simpl; [discriminate|].
  intros [= ->]. rewrite Hm. repeat split; reflexivity.
Qed.

(** The resolver once the token has given a subject and the cache answers:
    the path is decided by the cache entry and by the row it names. *)
Lemma get_current_user_cases `{Config} now token username w :
  token_subject now token = Ok username ->
  reads_fail (redis_db w) = false ->
  get_current_user now token w
  = match entries (redis_db w) !! cache_key_of username with
    | Some (v, expires) =>
        if Z.ltb now expires then
          if String.eqb v "" then username_lookup now username w
          else match py_int v with
               | Ok i =>
                   match scalar_one_or_none
                           (List.filter (matches (SelectById i)) (rows w)) with
                   | Ok (Some user) => (Ok user, logged (SelectById i) w)
                   | Ok None => username_lookup now username (logged (SelectById i) w)
                   | Raise e => (Raise e, logged (SelectById i) w)
                   end
               | Raise e => (Raise e, w)
               end
        else username_lookup now username w
    | None => username_lookup now username w
    end.
Proof.
  intros Hs Hr. rewrite get_current_user_unfold.
  unfold bind, lift, redis_get. rewrite Hs, Hr.
  destruct (entries (redis_db w) !! cache_key_of username) as [[v e]|];
    [|reflexivity].
  destruct (Z.ltb now e); [|reflexivity].
  simpl. destruct (String.eqb v ""); simpl; [reflexivity|].
  destruct (py_int v) as [i|err]; [|reflexivity].
  rewrite execute_eq.
  now destruct (scalar_one_or_none (List.filter (matches (SelectById i)) (rows w)))
    as [[user|]|err].
Qed.

(** What a successful resolution went through: a live cache entry whose id
    resolved, or the username lookup followed by the cache write. *)
Lemma get_current_user_ok_inv `{Config} now token w u :
  fst (get_current_user now token w) = Ok u ->
  exists username,
    token_subject now token = Ok username /\
    reads_fail (redis_db w) = false /\
    ((exists v expires i,
        entries (redis_db w) !! cache_key_of username = Some (v, expires) /\
        now < expires /\ v <> "" /\ py_int v = Ok i /\
        List.filter (matches (SelectById i)) (rows w) = [u] /\
        snd (get_current_user now token w) = logged (SelectById i) w) \/
     (List.filter (matches (SelectByUsername username)) (rows w) = [u] /\
      writes_fail (redis_db w) = false /\
      rows (snd (get_current_user now token w)) = rows w /\
      redis_db (snd (get_current_user now token w)) = cached now u (redis_db w))).
Proof.
  intros Hok.
  destruct (token_subject now token) as [username|e] eqn:Hs;
    [|revert Hok; rewrite get_current_user_unfold; unfold bind, lift;
      now rewrite Hs].
  destruct (reads_fail (redis_db w)) eqn:Hr;
    [now rewrite (get_current_user_read_error now token username w Hs Hr) in Hok|].
  exists username. split; [reflexivity|]. split; [reflexivity|].
  revert Hok. rewrite (get_current_user_cases now token username w Hs Hr).
  destruct (entries (redis_db w) !! cache_key_of username) as [[v e]|] eqn:He;
    [|intros Hok; right; now apply username_lookup_ok_inv].
  destruct (Z.ltb_spec now e) as [Hlt|Hge];
    [|intros Hok; right; now apply username_lookup_ok_inv].
  destruct (String.eqb_spec v "") as [Hv|Hv];
    [intros Hok; right; now apply username_lookup_ok_inv|].
  destruct (py_int v) as [i|err] eqn:Hi; [|discriminate].
  destruct (List.filter (matches (SelectById i)) (rows w)) as [|x [|y l]] eqn:Hq;
    simpl scalar_one_or_none; cbv iota.
  - intros Hok. right.
    apply (username_lookup_ok_inv now username (logged (SelectById i) w) u Hok).
  - simpl. intros [= ->]. left. exists v, e, i. repeat split; auto.
  - discriminate.
Qed.

(** C9: after a successful resolution of a token at time [t0] the cache
    holds a live entry for the token's subject (written with a TTL of 900
    seconds when the principal came from the username lookup); every
    resolution of the same token before that entry expires, the token still
    being valid, returns the same principal and executes one SELECT by id
    and nothing else: no username lookup, no cache write. *)
Theorem get_current_user_second_resolution `{Config} t0 token w u :
  List.NoDup (map User.id (rows w)) ->
  fst (get_current_user t0 token w) = Ok u ->
  exists username v expires,
    token_subject t0 token = Ok username /\
    entries (redis_db (snd (get_current_user t0 token w))) !! cache_key_of username
    = Some (v, expires) /\
    t0 < expires /\
    (redis_db (snd (get_current_user t0 token w)) = redis_db w \/
     (List.filter (matches (SelectByUsername username)) (rows w) = [u] /\
      v = py_str (User.id u) /\ expires = t0 + 900)) /\
    forall t1 payload,
      t1 < expires ->
      jwt_decode t1 token JWT_SECRET [JWT_ALGORITHM] = Ok payload ->
      get_current_user t1 token (snd (get_current_user t0 token w))
      = (Ok u, logged (SelectById (User.id u)) (snd (get_current_user t0 token w))).
Proof.
  intros Hpk Hok.
  destruct (get_current_user_ok_inv t0 token w u Hok)
    as (username & Hs & Hr & [(v & e & i & He & Hlt & Hv & Hi & Hq & Hsnd)
                             | (Hq & Hw & Hrows & Hredis)]).
  - exists username, v, e. rewrite Hsnd. simpl.
    repeat split; auto.
    intros t1 payload Ht1 Hd.
    destruct (filter_singleton_matches _ _ _ Hq) as [Hm _].
    simpl in Hm. apply Z.eqb_eq in Hm. rewrite Hm.
    apply (get_current_user_hit t1 token username _ v e i u); auto.
    now apply (token_subject_later t0 t1 token username payload).
  - destruct (filter_singleton_matches _ _ _ Hq) as [Hm Hin].
    simpl in Hm. apply String.eqb_eq in Hm.
    exists username, (py_str (User.id u)), (t0 + 900).
    split; [exact Hs|]. split.
    { rewrite Hredis. unfold cached. simpl. rewrite Hm. apply lookup_insert_eq. }
    split; [lia|]. split; [right; auto|].
    intros t1 payload Ht1 Hd.
    apply (get_current_user_hit t1 token username _ (py_str (User.id u))
             (t0 + 900) (User.id u) u); auto.
    + now apply (token_subject_later t0 t1 token username payload).
    + now rewrite Hredis.
    + rewrite Hredis. unfold cached. simpl. rewrite Hm. apply lookup_insert_eq.
    + apply py_str_nonempty.
    + apply py_int_py_str.
    + rewrite Hrows. now apply filter_by_primary_key.
Qed.

Lemma get_current_user_second_resolution_witness :
  fst (@get_current_user demo_config 200 alice_session_token demo_world) = Ok alice /\
  entries (redis_db (snd (@get_current_user demo_config 200 alice_session_token demo_world)))
    !! "curr_user:alice" = Some ("1", 1100) /\
  @get_current_user demo_config 1099 alice_session_token
    (snd (@get_current_user demo_config 200 alice_session_token demo_world))
  = (Ok alice,
     logged (SelectById 1)
       (snd (@get_current_user demo_config 200 alice_session_token demo_world))).
Proof.
  destruct (@get_current_user_second_resolution demo_config 200 alice_session_token
              demo_world alice)
    as (username & v & expires & Hs & He & _ & _ & Hsecond).
  - repeat constructor. intros [].
  - reflexivity.
  - injection Hs as <-.
    assert (Hentry : entries (redis_db (snd (@get_current_user demo_config 200
                        alice_session_token demo_world))) !! cache_key_of "alice"
                     = Some ("1", 1100)) by reflexivity.
    rewrite Hentry in He. injection He as <- <-.
    split; [reflexivity|]. split; [exact Hentry|].
    apply (Hsecond 1099 {| sub := Some "alice"; iat := None; exp := Some 3700 |});
      [lia|reflexivity].
Defined.

(** ** Registration with a role of the caller's choice *)

Lemma filter_app_matches q (l1 l2 : list User.t) :
  List.filter (matches q) (l1 ++ l2)
  = (List.filter (matches q) l1 ++ List.filter (matches q) l2)%list.
Proof. apply List.filter_app. Qed.

(** A registration with a fresh email and a fresh username. *)
Lemma register_user_fresh `{Config} `{CryptContext} user_data base_url avatar w :
  List.filter (matches (SelectByEmail (uc_email user_data))) (rows w) = [] ->
  List.filter (matches (SelectByUsername (uc_username user_data))) (rows w) = [] ->
  register_user user_data base_url avatar w
  = (Ok (new_row user_data avatar (next_id w)),
     {| rows := rows w ++ [new_row user_data avatar (next_id w)];
        next_id := next_id w + 1;
        redis_db := redis_db w;
        background_tasks :=
          background_tasks w ++
          [send_email_for_confirm (uc_email user_data) (uc_username user_data) base_url];
        sql_log := sql_log w ++ [SelectByEmail (uc_email user_data)] |}).
Proof.
  intros He Hu. unfold register_user, bind, UserService.get_user_by_email,
    UserRepository.get_user_by_email.
  rewrite execute_eq, He. simpl.
  unfold UserService.create_user, UserRepository.create_user, add_commit_refresh.
  simpl.
  assert (Eu : existsb (fun r => String.eqb (User.username r) (uc_username user_data))
                 (rows w) = false) by (now apply existsb_filter_nil).
  assert (Ee : existsb (fun r => String.eqb (User.email r) (uc_email user_data))
                 (rows w) = false) by (now apply existsb_filter_nil).
  rewrite Eu, Ee. reflexivity.
Qed.

(** ConfirmEmail for a principal that is not verified yet. *)
Lemma confirmed_email_unverified `{Config} now token email w u :
  get_email_from_token now token = Ok email ->
  List.filter (matches (SelectByEmail email)) (rows w) = [u] ->
  User.is_verified u = false ->
  confirmed_email now token w
  = (Ok "Електронну пошту підтверджено",
     with_rows
       (map (fun r => if Z.eqb (User.id r) (User.id u)
                      then User.set_is_verified true r else r) (rows w))
       (logged (SelectByEmail email) (logged (SelectByEmail email) w))).
Proof.
  intros Htok Hq Hv. unfold confirmed_email, bind, lift. rewrite Htok.
  unfold UserService.get_user_by_email, UserRepository.get_user_by_email.
  rewrite execute_eq, Hq. simpl. rewrite Hv.
  unfold UserService.set_user_verified, UserRepository.set_user_verified,
    UserRepository.get_user_by_email, bind.
  rewrite execute_eq. simpl rows. rewrite Hq. reflexivity.
Qed.

Lemma session_token_subject `{Config} issued now username :
  username <> "" ->
  now <= issued + JWT_EXPIRATION_SECONDS ->
  token_subject now (create_access_token issued (sub_only username) None) = Ok username.
Proof.
  intros Hne Hle. unfold token_subject, create_access_token. simpl py_bool_int.
  cbv iota.
  rewrite (jwt_decode_own now _ (issued + JWT_EXPIRATION_SECONDS)) by (auto; reflexivity).
  simpl. destruct (String.eqb_spec username ""); [contradiction|reflexivity].
Qed.

(** The rows that a query matches after a registration and the confirmation
    of the new row. *)
Lemma filter_after_confirmation q (rs : list User.t) (nu : User.t) :
  List.filter (matches q) rs = [] ->
  matches q nu = true ->
  List.filter (matches q)
    (map (fun r => if Z.eqb (User.id r) (User.id nu)
                   then User.set_is_verified true r else r) (rs ++ [nu]))
  = [User.set_is_verified true nu].
Proof.
  intros Hq Hm.
  rewrite filter_matches_map
    by (intros r; apply matches_update; intros x; apply matches_set_is_verified).
  rewrite filter_app_matches, Hq. simpl. rewrite Hm. simpl.
  now rewrite Z.eqb_refl.
Qed.

(** C7: a registration that asks for the role ADMIN, with an email and a
    username that are free, is stored with that role; after the confirmation
    link and a login with the chosen password, the session token passes
    [get_current_user] and [get_current_admin_user]: the admin gate returns
    the caller's principal. *)
Theorem register_admin_role_accepted `{Config} `{CryptContext}
  user_data base_url avatar t_mail t_confirm t_login t_admin w :
  uc_role user_data = ADMIN ->
  uc_username user_data <> "" ->
  pwd_verify (uc_password user_data) (pwd_hash (uc_password user_data)) = true ->
  List.filter (matches (SelectByEmail (uc_email user_data))) (rows w) = [] ->
  List.filter (matches (SelectByUsername (uc_username user_data))) (rows w) = [] ->
  reads_fail (redis_db w) = false ->
  writes_fail (redis_db w) = false ->
  entries (redis_db w) !! cache_key_of (uc_username user_data) = None ->
  t_confirm <= t_mail + 7 * seconds_per_day ->
  t_admin <= t_login + JWT_EXPIRATION_SECONDS ->
  exists u,
    fst (register_confirm_login_admin user_data base_url avatar
           t_mail t_confirm t_login t_admin w) = Ok u /\
    u = User.set_is_verified true (new_row user_data avatar (next_id w)) /\
    User.username u = uc_username user_data /\
    User.role u = ADMIN /\
    get_current_admin_user u = Ok u.
Proof.
  intros Hrole Hname Hpwd He Hu Hreads Hwrites Hentry Hconfirm Hadmin.
  set (nu := new_row user_data avatar (next_id w)).
  exists (User.set_is_verified true nu).
  assert (Hgate : get_current_admin_user (User.set_is_verified true nu)
                  = Ok (User.set_is_verified true nu)).
  { unfold get_current_admin_user. simpl. now rewrite Hrole. }
  split; [|repeat split; auto].
  unfold register_confirm_login_admin, bind.
  rewrite (register_user_fresh user_data base_url avatar w He Hu).
  fold nu. cbv beta iota.
  erewrite (confirmed_email_unverified t_confirm _ (uc_email user_data) _ nu).
  2: { now apply email_token_decodes. }
  2: { simpl rows. rewrite filter_app_matches, He. simpl.
       now rewrite String.eqb_refl. }
  2: { reflexivity. }
  cbv beta iota.
  erewrite (login_user_ok t_login _ _ (User.set_is_verified true nu)).
  2: { apply (filter_after_confirmation (SelectByUsername (uc_username user_data))
                (rows w) nu); [exact Hu|].
       simpl. apply String.eqb_refl. }
  2: { reflexivity. }
  2: { unfold call_on_instance, Hash.verify_password. simpl. now rewrite Hpwd. }
  cbv beta iota. simpl access_token.
  unfold admin_dependency, bind.
  erewrite (get_current_user_miss t_admin _ (uc_username user_data) _
              (User.set_is_verified true nu)).
  2: { now apply session_token_subject. }
  2: { unfold redis_get. simpl. now rewrite Hreads, Hentry. }
  2: { apply (filter_after_confirmation (SelectByUsername (uc_username user_data))
                (rows w) nu); [exact Hu|].
       simpl. apply String.eqb_refl. }
  simpl redis_db. rewrite Hwrites. unfold lift. rewrite Hgate. reflexivity.
Qed.

Lemma register_admin_role_accepted_witness :
  exists u,
    fst (@register_confirm_login_admin demo_config demo_crypt mallory_request
           "http://testserver/" None 1000 1060 1120 1180 demo_world) = Ok u /\
    User.username u = "mallory" /\ User.role u = ADMIN.
Proof.
  destruct (@register_admin_role_accepted demo_config demo_crypt mallory_request
              "http://testserver/" None 1000 1060 1120 1180 demo_world)
    as (u & Hrun & _ & Hname & Hrole & _); try reflexivity.
  - discriminate.
  - vm_compute. discriminate.
  - vm_compute. discriminate.
  - exists u. auto.
Defined.

(** ** The primary key is an invariant of the routes *)

Lemma preserves_ret {A} P (a : A) : preserves P (ret a).
Proof. intros w Hw. exact Hw. Qed.

Lemma preserves_raise {A} P e : preserves P (@raise A e).
Proof. intros w Hw. exact Hw. Qed.

Lemma preserves_lift {A} P (r : Res A) : preserves P (lift r).
Proof. intros w Hw. exact Hw. Qed.

Lemma preserves_bind {A B} P (m : M A) (k : A -> M B) :
  preserves P m -> (forall a, preserves P (k a)) -> preserves P (bind m k).
Proof.
  intros Hm Hk w Hw. unfold bind. specialize (Hm w Hw).
  destruct (m w) as [[a|e] w']; simpl in *; [now apply Hk|exact Hm].
Qed.

Lemma primary_key_execute q : preserves primary_key_ok (execute q).
Proof. intros w Hw. exact Hw. Qed.

Lemma primary_key_add_task t : preserves primary_key_ok (add_task t).
Proof. intros w Hw. exact Hw. Qed.

Lemma primary_key_redis_get now key : preserves primary_key_ok (redis_get now key).
Proof.
  intros w Hw. unfold redis_get. destruct (reads_fail (redis_db w)); [exact Hw|].
  destruct (entries (redis_db w) !! key) as [[v e]|]; [|exact Hw].
  now destruct (Z.ltb now e).
Qed.

Lemma primary_key_redis_set now key value ex :
  preserves primary_key_ok (redis_set now key value ex).
Proof.
  intros w Hw. unfold redis_set. now destruct (writes_fail (redis_db w)).
Qed.

Lemma primary_key_setattr_commit i f :
  (forall r, User.id (f r) = User.id r) ->
  preserves primary_key_ok (setattr_commit i f).
Proof.
  intros Hf w [Hnd Hlt]. unfold setattr_commit, primary_key_ok. simpl.
  assert (Hid : forall r, User.id (if Z.eqb (User.id r) i then f r else r) = User.id r)
    by (intros r; destruct (Z.eqb (User.id r) i); auto).
  split.
  - rewrite map_map. erewrite map_ext; [exact Hnd|]. exact Hid.
  - apply List.Forall_forall. intros r Hr. apply in_map_iff in Hr.
    destruct Hr as (r0 & <- & Hr0). rewrite Hid.
    rewrite List.Forall_forall in Hlt. now apply Hlt.
Qed.

Lemma primary_key_add_commit_refresh new :
  (forall i, User.id (new i) = i) ->
  preserves primary_key_ok (add_commit_refresh new).
Proof.
  intros Hnew w [Hnd Hlt]. unfold add_commit_refresh.
  destruct (existsb _ (rows w)); [now split|].
  destruct (existsb _ (rows w)); [now split|].
  unfold primary_key_ok. simpl. rewrite List.Forall_forall in Hlt. split.
  - rewrite map_app. simpl. rewrite Hnew.
    apply List.NoDup_app. repeat split; auto.
    + repeat constructor. intros [].
    + intros x Hx [<-|[]]. apply in_map_iff in Hx.
      destruct Hx as (r & E & Hr). specialize (Hlt r Hr). lia.
  - apply List.Forall_forall. intros r Hr. apply in_app_iff in Hr.
    destruct Hr as [Hr|[<-|[]]].
    + specialize (Hlt r Hr). lia.
    + rewrite Hnew. lia.
Qed.

Ltac preserve :=
  repeat first
    [ apply preserves_ret | apply preserves_raise | apply preserves_lift
    | apply primary_key_execute | apply primary_key_add_task
    | apply primary_key_redis_get | apply primary_key_redis_set
    | apply primary_key_setattr_commit; intros; reflexivity
    | apply primary_key_add_commit_refresh; intros; reflexivity
    | apply preserves_bind; [|intros]
    | match goal with
      | |- preserves _ (match ?x with _ => _ end) => destruct x
      | |- preserves _ (if ?b then _ else _) => destruct b
      end ].

Lemma primary_key_register_user `{Config} `{CryptContext} user_data base_url avatar :
  preserves primary_key_ok (register_user user_data base_url avatar).
Proof.
  unfold register_user, UserService.get_user_by_email, UserService.create_user,
    UserRepository.get_user_by_email, UserRepository.create_user.
  preserve.
Qed.

Lemma primary_key_login_user `{Config} `{CryptContext} now form_data :
  preserves primary_key_ok (login_user now form_data).
Proof.
  unfold login_user, UserService.get_user_by_username,
    UserRepository.get_user_by_username.
  preserve.
Qed.

Lemma primary_key_confirmed_email `{Config} now token :
  preserves primary_key_ok (confirmed_email now token).
Proof.
  unfold confirmed_email, UserService.get_user_by_email, UserService.set_user_verified,
    UserRepository.set_user_verified, UserRepository.get_user_by_email.
  preserve.
Qed.

Lemma primary_key_forgot_password `{Config} `{CryptContext} data base_url :
  preserves primary_key_ok (forgot_password data base_url).
Proof.
  unfold forgot_password, UserService.get_user_by_email,
    UserService.get_user_by_username, UserService.set_temp_password,
    UserRepository.set_temp_password, UserRepository.get_user_by_email,
    UserRepository.get_user_by_username.
  preserve.
Qed.

Lemma primary_key_reset_password `{Config} now token :
  preserves primary_key_ok (reset_password now token).
Proof.
  unfold reset_password, UserService.get_user_by_email, UserService.set_new_password,
    UserService.set_temp_password, UserRepository.set_new_password,
    UserRepository.set_temp_password, UserRepository.get_user_by_email.
  preserve.
Qed.

Lemma primary_key_get_current_user `{Config} now token :
  preserves primary_key_ok (get_current_user now token).
Proof. unfold get_current_user. preserve. Qed.

(** * Further properties of the code *)

(** ** Token lifetimes *)

(** A session token is accepted as long as the time is not past its issue
    time plus its lifetime, and rejected with the credentials error after;
    an [expires_delta] of 0 counts as absent and gives the configured
    lifetime. *)
Theorem session_token_window `{Config} issued now username expires_delta :
  username <> "" ->
  (now <= issued + session_ttl expires_delta ->
   token_subject now (create_access_token issued (sub_only username) expires_delta)
   = Ok username) /\
  (issued + session_ttl expires_delta < now ->
   token_subject now (create_access_token issued (sub_only username) expires_delta)
   = Raise credentials_exception) /\
  create_access_token issued (sub_only username) (Some 0)
  = create_access_token issued (sub_only username) None.
Proof.
  intros Hne.
  assert (Hexp : create_access_token issued (sub_only username) expires_delta
                 = jwt_encode (with_exp (issued + session_ttl expires_delta)
                                 (sub_only username)) JWT_SECRET JWT_ALGORITHM).
  { unfold create_access_token, session_ttl.
    destruct expires_delta as [d|]; simpl; [|reflexivity].
    now destruct (Z.eqb d 0). }
  rewrite Hexp. split; [|split; [|reflexivity]].
  - intros Hle. unfold token_subject.
    rewrite (jwt_decode_own now _ (issued + session_ttl expires_delta))
      by (auto; reflexivity).
    simpl. destruct (String.eqb_spec username ""); [contradiction|reflexivity].
  - intros Hlt. unfold token_subject, jwt_decode, jwt_encode.
    rewrite bool_decide_eq_true_2 by apply list_elem_of_singleton, eq_refl.
    rewrite String.eqb_refl. simpl.
    destruct (Z.ltb_spec (issued + session_ttl expires_delta) now); [reflexivity|lia].
Qed.

Lemma session_token_window_witness :
  @token_subject demo_config 3700
    (@create_access_token demo_config 100 (sub_only "alice") (Some 0)) = Ok "alice" /\
  @token_subject demo_config 3701
    (@create_access_token demo_config 100 (sub_only "alice") (Some 0))
  = Raise credentials_exception /\
  @token_subject demo_config 130
    (@create_access_token demo_config 100 (sub_only "alice") (Some 30)) = Ok "alice" /\
  @token_subject demo_config 131
    (@create_access_token demo_config 100 (sub_only "alice") (Some 30))
  = Raise credentials_exception.
Proof.
  destruct (@session_token_window demo_config 100 3700 "alice" (Some 0))
    as (H1 & _ & _); [discriminate|].
  destruct (@session_token_window demo_config 100 3701 "alice" (Some 0))
    as (_ & H2 & _); [discriminate|].
  destruct (@session_token_window demo_config 100 130 "alice" (Some 30))
    as (H3 & _ & _); [discriminate|].
  destruct (@session_token_window demo_config 100 131 "alice" (Some 30))
    as (_ & H4 & _); [discriminate|].
  split; [apply H1|split; [apply H2|split; [apply H3|apply H4]]]; vm_compute;
    first [reflexivity | discriminate].
Defined.

(** The token of a confirmation or reset mail gives the recipient's email
    back for seven days after the mail was made, both ends included, and is
    answered with 422 after. *)
Theorem purpose_token_window `{Config} issued now email username host :
  (now <= issued + 604800 ->
   get_email_from_token now
     (task_token issued (send_email_for_reset_password email username host))
   = Ok email) /\
  (issued + 604800 < now ->
   get_email_from_token now
     (task_token issued (send_email_for_confirm email username host))
   = Raise (HTTPException HTTP_422_UNPROCESSABLE_ENTITY bad_token_detail)).
Proof.
  split.
  - intros Hle. apply email_token_decodes. unfold seconds_per_day. lia.
  - intros Hlt. unfold task_token, create_email_token, get_email_from_token,
      jwt_decode, jwt_encode.
    rewrite bool_decide_eq_true_2 by apply list_elem_of_singleton, eq_refl.
    rewrite String.eqb_refl. simpl.
    destruct (Z.ltb_spec (issued + 7 * seconds_per_day) now); [reflexivity|].
    unfold seconds_per_day in *. lia.
Qed.

(** ** The resolver: rejections, stale entries, the admin gate *)

(** A bearer token that does not decode, that has no subject or that has the
    empty string as subject is answered with the credentials error (401)
    before the cache or the table is consulted: the world is what it was. *)
Theorem get_current_user_rejects_before_lookup `{Config} now token w :
  (forall e,
     jwt_decode now token JWT_SECRET [JWT_ALGORITHM] = Raise e ->
     get_current_user now token w = (Raise credentials_exception, w)) /\
  (forall payload,
     jwt_decode now token JWT_SECRET [JWT_ALGORITHM] = Ok payload ->
     sub payload = None \/ sub payload = Some "" ->
     get_current_user now token w = (Raise credentials_exception, w)).
Proof.
  split.
  - intros e Hd. pose proof (jwt_decode_raises_JWTError _ _ _ _ _ Hd) as ->.
    rewrite get_current_user_unfold. unfold bind, lift, token_subject.
    now rewrite Hd.
  - intros payload Hd Hsub.
    rewrite get_current_user_unfold. unfold bind, lift, token_subject.
    rewrite Hd. simpl. now destruct Hsub as [-> | ->].
Qed.

Lemma get_current_user_rejects_before_lookup_witness :
  @get_current_user demo_config 200 (Malformed "not-a-jwt") crossed_world
  = (Raise credentials_exception, crossed_world) /\
  @get_current_user demo_config 200 subjectless_token crossed_world
  = (Raise credentials_exception, crossed_world).
Proof.
  destruct (@get_current_user_rejects_before_lookup demo_config 200
              (Malformed "not-a-jwt") crossed_world) as [Hbad _].
  destruct (@get_current_user_rejects_before_lookup demo_config 200
              subjectless_token crossed_world) as [_ Hnosub].
  split.
  - apply (Hbad JWTError). reflexivity.
  - apply (Hnosub {| sub := None; iat := Some 0; exp := Some 604800 |});
      [reflexivity|now left].
Defined.

(** A valid token whose subject is no principal's username, on a cache
    miss, is answered with the credentials error after one SELECT by
    username; nothing is written to the cache. *)
Theorem get_current_user_unknown_subject `{Config} now token username w :
  token_subject now token = Ok username ->
  fst (redis_get now (cache_key_of username) w) = Ok None ->
  List.filter (matches (SelectByUsername username)) (rows w) = [] ->
  get_current_user now token w
  = (Raise credentials_exception, logged (SelectByUsername username) w).
Proof.
  intros Hs Hg Hq.
  assert (Hr : reads_fail (redis_db w) = false).
  { revert Hg. unfold redis_get. now destruct (reads_fail (redis_db w)). }
  rewrite (get_current_user_cases now token username w Hs Hr).
  assert (Hlookup : username_lookup now username w
                    = (Raise credentials_exception,
                       logged (SelectByUsername username) w)).
  { unfold username_lookup, bind. rewrite execute_eq, Hq. reflexivity. }
  revert Hg. unfold redis_get. rewrite Hr.
  destruct (entries (redis_db w) !! cache_key_of username) as [[v e]|];
    [|intros _; exact Hlookup].
  destruct (Z.ltb now e); [discriminate|intros _; exact Hlookup].
Qed.

Lemma get_current_user_unknown_subject_witness :
  @get_current_user demo_config 200
    (@create_access_token demo_config 100 (sub_only "carol") None) demo_world
  = (Raise credentials_exception, logged (SelectByUsername "carol") demo_world).
Proof.
  apply (@get_current_user_unknown_subject demo_config 200 _ "carol" demo_world);
    reflexivity.
Defined.

(** A live cache entry whose id has no row any more does not fail the
    resolution: after the SELECT by id the resolver looks the subject up by
    username, returns that principal and overwrites the entry with the
    principal's id and a fresh expiry of 900 seconds. *)
Theorem get_current_user_stale_entry `{Config} now token username w v expires i u :
  token_subject now token = Ok username ->
  reads_fail (redis_db w) = false ->
  writes_fail (redis_db w) = false ->
  entries (redis_db w) !! cache_key_of username = Some (v, expires) ->
  now < expires ->
  v <> "" ->
  py_int v = Ok i ->
  List.filter (matches (SelectById i)) (rows w) = [] ->
  List.filter (matches (SelectByUsername username)) (rows w) = [u] ->
  get_current_user now token w
  = (Ok u,
     with_redis (cached now u (redis_db w))
       (logged (SelectByUsername username) (logged (SelectById i) w))) /\
  entries (redis_db (snd (get_current_user now token w))) !! cache_key_of username
  = Some (py_str (User.id u), now + 900).
Proof.
  intros Hs Hr Hw He Hlt Hv Hi Hqi Hqu.
  destruct (filter_singleton_matches _ _ _ Hqu) as [Hm _].
  simpl in Hm. apply String.eqb_eq in Hm.
  assert (E : get_current_user now token w
              = (Ok u, with_redis (cached now u (redis_db w))
                         (logged (SelectByUsername username) (logged (SelectById i) w)))).
  { rewrite (get_current_user_cases now token username w Hs Hr), He.
    destruct (Z.ltb_spec now expires); [|lia].
    destruct (String.eqb_spec v ""); [contradiction|].
    rewrite Hi, Hqi. simpl scalar_one_or_none. cbv iota.
    unfold username_lookup, bind. rewrite execute_eq. simpl rows. rewrite Hqu.
    simpl. unfold redis_set, cached. simpl. rewrite Hw, Hm. reflexivity. }
  split; [exact E|]. rewrite E. simpl. rewrite Hm. apply lookup_insert_eq.
Qed.

Lemma get_current_user_stale_entry_witness :
  fst (@get_current_user demo_config 200 alice_session_token stale_world) = Ok alice /\
  sql_log (snd (@get_current_user demo_config 200 alice_session_token stale_world))
  = [SelectById 7; SelectByUsername "alice"] /\
  entries (redis_db (snd (@get_current_user demo_config 200 alice_session_token
                            stale_world))) !! "curr_user:alice"
  = Some ("1", 1100).
Proof.
  destruct (@get_current_user_stale_entry demo_config 200 alice_session_token
              "alice" stale_world "7" 5000 7 alice) as [Hrun Hentry];
    try reflexivity; try discriminate.
  split; [now rewrite Hrun|]. split; [now rewrite Hrun|exact Hentry].
Defined.

(** On a live cache entry the resolver returns the row that has the cached
    id, after one SELECT by id, and never compares that row's username with
    the subject of the token. *)
Theorem get_current_user_trusts_cached_id `{Config} now token username w v expires i u :
  token_subject now token = Ok username ->
  reads_fail (redis_db w) = false ->
  entries (redis_db w) !! cache_key_of username = Some (v, expires) ->
  now < expires ->
  v <> "" ->
  py_int v = Ok i ->
  List.filter (matches (SelectById i)) (rows w) = [u] ->
  get_current_user now token w = (Ok u, logged (SelectById i) w) /\
  rows (snd (get_current_user now token w)) = rows w /\
  redis_db (snd (get_current_user now token w)) = redis_db w.
Proof.
  intros Hs Hr He Hlt Hv Hi Hq.
  rewrite (get_current_user_hit now token username w v expires i u Hs Hr He Hlt Hv Hi Hq).
  repeat split.
Qed.

Lemma get_current_user_trusts_cached_id_witness :
  @token_subject demo_config 200 alice_session_token = Ok "alice" /\
  @get_current_user demo_config 200 alice_session_token crossed_world
  = (Ok bob, logged (SelectById 2) crossed_world).
Proof.
  split; [reflexivity|].
  apply (@get_current_user_trusts_cached_id demo_config 200 alice_session_token
           "alice" crossed_world "2" 5000 2 bob); try reflexivity; discriminate.
Defined.

(** The admin gate behind the resolver: it returns a principal exactly when
    the resolver returned it and its role is ADMIN; a resolved principal
    with another role is answered with 403; an error of the resolver passes
    through as it is.  The world is the one the resolver left. *)
Theorem admin_dependency_gate `{Config} now token w :
  snd (admin_dependency now token w) = snd (get_current_user now token w) /\
  (forall u,
     fst (admin_dependency now token w) = Ok u
     <-> fst (get_current_user now token w) = Ok u /\ User.role u = ADMIN) /\
  (forall u,
     fst (get_current_user now token w) = Ok u ->
     User.role u <> ADMIN ->
     response_status 200 (fst (admin_dependency now token w)) = 403) /\
  (forall e,
     fst (get_current_user now token w) = Raise e ->
     fst (admin_dependency now token w) = Raise e).
Proof.
  unfold admin_dependency, bind, lift, get_current_admin_user.
  destruct (get_current_user now token w) as [[x|err] w']; simpl.
  - destruct (decide (User.role x = ADMIN)) as [Hr|Hr].
    + rewrite bool_decide_eq_true_2 by exact Hr. simpl.
      split; [reflexivity|]. split; [|split].
      * intros u. split; [intros [= <-]; auto|intros [[= <-] _]; reflexivity].
      * intros u [= <-] Hne. contradiction.
      * discriminate.
    + rewrite bool_decide_eq_false_2 by exact Hr. simpl.
      split; [reflexivity|]. split; [|split].
      * intros u. split; [discriminate|intros [[= <-] Hu]; contradiction].
      * reflexivity.
      * discriminate.
  - split; [reflexivity|]. split; [|split].
    + intros u. split; [discriminate|intros [[=] _]].
    + discriminate.
    + now intros e [= <-].
Qed.

(** ** Login and the resolver together *)

(** What a GET of the cache answers does not depend on the SELECT log. *)
Lemma redis_get_logged now key q w :
  fst (redis_get now key (logged q w)) = fst (redis_get now key w).
Proof.
  unfold redis_get. simpl. destruct (reads_fail (redis_db w)); [reflexivity|].
  destruct (entries (redis_db w) !! key) as [[v e]|]; [|reflexivity].
  now destruct (Z.ltb now e).
Qed.

(** A successful login gives a token that the resolver accepts until the
    configured lifetime is over: on a cache miss it returns the principal
    that logged in and stores its id in the cache. *)
Theorem login_then_resolve `{Config} `{CryptContext} t_login t_use form_data w u :
  List.filter (matches (SelectByUsername (form_username form_data))) (rows w) = [u] ->
  User.is_verified u = true ->
  call_on_instance Hash.verify_password
    [PyStr (form_password form_data); PyOptStr (User.password u)] = Ok true ->
  form_username form_data <> "" ->
  t_use <= t_login + JWT_EXPIRATION_SECONDS ->
  fst (redis_get t_use (cache_key_of (form_username form_data)) w) = Ok None ->
  writes_fail (redis_db w) = false ->
  exists session,
    fst (login_user t_login form_data w) = Ok session /\
    token_type session = "bearer" /\
    fst (get_current_user t_use (access_token session)
           (snd (login_user t_login form_data w))) = Ok u /\
    entries (redis_db (snd (get_current_user t_use (access_token session)
                              (snd (login_user t_login form_data w)))))
      !! cache_key_of (form_username form_data)
    = Some (py_str (User.id u), t_use + 900).
Proof.
  intros Hq Hv Hp Hne Hle Hmiss Hw.
  destruct (filter_singleton_matches _ _ _ Hq) as [Hm _].
  simpl in Hm. apply String.eqb_eq in Hm.
  rewrite (login_user_ok t_login form_data w u Hq Hv Hp). simpl.
  eexists. split; [reflexivity|]. split; [reflexivity|]. simpl access_token.
  rewrite (get_current_user_miss t_use _ (form_username form_data) _ u).
  - simpl redis_db. rewrite Hw. simpl. split; [reflexivity|].
    rewrite Hm. apply lookup_insert_eq.
  - rewrite Hm. now apply session_token_subject.
  - now rewrite redis_get_logged.
  - exact Hq.
Qed.

Lemma login_then_resolve_witness :
  exists session,
    fst (@login_user demo_config demo_crypt 100
           {| form_username := "alice"; form_password := "pw1" |} demo_world)
    = Ok session /\
    fst (@get_current_user demo_config 3700 (access_token session)
           (snd (@login_user demo_config demo_crypt 100
                   {| form_username := "alice"; form_password := "pw1" |} demo_world)))
    = Ok alice.
Proof.
  destruct (@login_then_resolve demo_config demo_crypt 100 3700
              {| form_username := "alice"; form_password := "pw1" |} demo_world alice)
    as (session & Hlogin & _ & Hres & _);
    try reflexivity; try (vm_compute; discriminate).
  exists session. auto.
Defined.

(** A principal whose username is the empty string can log in, but the
    token it gets is rejected by the resolver at every time and in every
    world: the subject of the token is falsy. *)
Theorem empty_username_never_resolves `{Config} `{CryptContext} t_login form_data w u :
  List.filter (matches (SelectByUsername (form_username form_data))) (rows w) = [u] ->
  User.is_verified u = true ->
  call_on_instance Hash.verify_password
    [PyStr (form_password form_data); PyOptStr (User.password u)] = Ok true ->
  form_username form_data = "" ->
  exists session,
    fst (login_user t_login form_data w) = Ok session /\
    forall t_use w',
      get_current_user t_use (access_token session) w'
      = (Raise credentials_exception, w').
Proof.
  intros Hq Hv Hp Hempty.
  destruct (filter_singleton_matches _ _ _ Hq) as [Hm _].
  simpl in Hm. apply String.eqb_eq in Hm.
  rewrite (login_user_ok t_login form_data w u Hq Hv Hp). simpl.
  eexists. split; [reflexivity|]. intros t_use w'. simpl access_token.
  rewrite get_current_user_unfold. unfold bind, lift, token_subject.
  rewrite Hm, Hempty.
  destruct (jwt_decode t_use (create_access_token t_login (sub_only "") None)
              JWT_SECRET [JWT_ALGORITHM]) as [payload|e] eqn:Hd.
  - assert (sub payload = Some "") as Hs.
    { revert Hd. unfold jwt_decode, create_access_token, jwt_encode. simpl.
      destruct (negb (bool_decide (JWT_ALGORITHM ∈ [JWT_ALGORITHM]))); [discriminate|].
      destruct (negb (String.eqb JWT_SECRET JWT_SECRET)); [discriminate|].
      destruct (Z.ltb (t_login + JWT_EXPIRATION_SECONDS) t_use); [discriminate|].
      now intros [= <-]. }
    simpl. now rewrite Hs.
  - now rewrite (jwt_decode_raises_JWTError _ _ _ _ _ Hd).
Qed.

Lemma empty_username_never_resolves_witness :
  exists session,
    fst (@login_user demo_config demo_crypt 100
           {| form_username := ""; form_password := "pw1" |} nameless_world)
    = Ok session /\
    @get_current_user demo_config 101 (access_token session) nameless_world
    = (Raise credentials_exception, nameless_world).
Proof.
  destruct (@empty_username_never_resolves demo_config demo_crypt 100
              {| form_username := ""; form_password := "pw1" |} nameless_world nameless)
    as (session & Hlogin & Hres); try reflexivity.
  exists session. split; [exact Hlogin|apply Hres].
Defined.

(** After a registration the new principal cannot log in before the email
    is confirmed: whatever password is sent, the answer is 401. *)
Theorem register_then_login_unverified `{Config} `{CryptContext}
  user_data base_url avatar now password w :
  List.filter (matches (SelectByEmail (uc_email user_data))) (rows w) = [] ->
  List.filter (matches (SelectByUsername (uc_username user_data))) (rows w) = [] ->
  response_status 200
    (fst (login_user now
            {| form_username := uc_username user_data; form_password := password |}
            (snd (register_user user_data base_url avatar w))))
  = HTTP_401_UNAUTHORIZED.
Proof.
  intros He Hu.
  rewrite (register_user_fresh user_data base_url avatar w He Hu). simpl snd.
  apply login_user_unverified with (u := new_row user_data avatar (next_id w));
    [|reflexivity].
  simpl rows. simpl form_username. rewrite filter_app_matches, Hu. simpl.
  now rewrite String.eqb_refl.
Qed.

Lemma register_then_login_unverified_witness :
  response_status 200
    (fst (@login_user demo_config demo_crypt 50
            {| form_username := "mallory"; form_password := "pw" |}
            (snd (@register_user demo_config demo_crypt mallory_request
                    "http://testserver/" None demo_world))))
  = HTTP_401_UNAUTHORIZED.
Proof.
  apply (@register_then_login_unverified demo_config demo_crypt mallory_request
           "http://testserver/" None 50 "pw" demo_world); reflexivity.
Defined.

(** ** ConfirmEmail and the purpose token *)

(** ConfirmEmail for a principal that is not verified sets the flag of that
    row and changes no other field and no other row; a second call with a
    valid token is answered with the informational message and leaves the
    table as the first call left it. *)
Theorem confirmed_email_sets_flag `{Config} t1 t2 token1 token2 p1 p2 w u :
  jwt_decode t1 token1 JWT_SECRET [JWT_ALGORITHM] = Ok p1 ->
  sub p1 = Some (User.email u) ->
  jwt_decode t2 token2 JWT_SECRET [JWT_ALGORITHM] = Ok p2 ->
  sub p2 = Some (User.email u) ->
  List.filter (matches (SelectByEmail (User.email u))) (rows w) = [u] ->
  User.is_verified u = false ->
  fst (confirmed_email t1 token1 w) = Ok "Електронну пошту підтверджено" /\
  List.filter (matches (SelectByEmail (User.email u)))
    (rows (snd (confirmed_email t1 token1 w))) = [User.set_is_verified true u] /\
  (forall r, In r (rows w) -> User.id r <> User.id u ->
             In r (rows (snd (confirmed_email t1 token1 w)))) /\
  fst (confirmed_email t2 token2 (snd (confirmed_email t1 token1 w)))
  = Ok "Ваша електронна пошта вже підтверджена" /\
  rows (snd (confirmed_email t2 token2 (snd (confirmed_email t1 token1 w))))
  = rows (snd (confirmed_email t1 token1 w)).
Proof.
  intros Hd1 Hs1 Hd2 Hs2 Hq Hv.
  pose proof (get_email_from_token_decoded t1 token1 p1 _ Hd1 Hs1) as Htok1.
  rewrite (confirmed_email_unverified t1 token1 _ w u Htok1 Hq Hv). simpl fst. simpl snd.
  assert (Hq' : List.filter (matches (SelectByEmail (User.email u)))
                  (map (fun r => if Z.eqb (User.id r) (User.id u)
                                 then User.set_is_verified true r else r) (rows w))
                = [User.set_is_verified true u]).
  { rewrite filter_matches_map
      by (intros r; apply matches_update; intros x; apply matches_set_is_verified).
    rewrite Hq. simpl. now rewrite Z.eqb_refl. }
  split; [reflexivity|]. split; [exact Hq'|]. split.
  - intros r Hr Hne. simpl. apply in_map_iff. exists r. split; [|exact Hr].
    destruct (Z.eqb_spec (User.id r) (User.id u)); [contradiction|reflexivity].
  - rewrite (confirmed_email_already_verified t2 token2 p2 _
               (User.set_is_verified true u) Hd2 Hs2); simpl; auto.
Qed.

Lemma confirmed_email_sets_flag_witness :
  fst (@confirmed_email demo_config 60
         (@create_email_token demo_config 0 (sub_only "bob@x.com")) crossed_world)
  = Ok "Електронну пошту підтверджено" /\
  rows (snd (@confirmed_email demo_config 60
               (@create_email_token demo_config 0 (sub_only "bob@x.com")) crossed_world))
  = [alice; User.set_is_verified true bob].
Proof.
  destruct (@confirmed_email_sets_flag demo_config 60 70
              (@create_email_token demo_config 0 (sub_only "bob@x.com"))
              (@create_email_token demo_config 0 (sub_only "bob@x.com"))
              {| sub := Some "bob@x.com"; iat := Some 0; exp := Some 604800 |}
              {| sub := Some "bob@x.com"; iat := Some 0; exp := Some 604800 |}
              crossed_world bob) as (Hok & _); try reflexivity.
  split; [exact Hok|reflexivity].
Defined.

(** A validly signed, unexpired purpose token without a subject is not
    answered with 422 or 400: the read of [payload["sub"]] raises
    [KeyError], which the handler for [JWTError] does not catch, so both
    routes that take a purpose token end with status 500 and touch
    nothing. *)
Theorem purpose_token_without_subject `{Config} now token payload w :
  jwt_decode now token JWT_SECRET [JWT_ALGORITHM] = Ok payload ->
  sub payload = None ->
  confirmed_email now token w = (Raise (KeyError "sub"), w) /\
  reset_password now token w = (Raise (KeyError "sub"), w) /\
  response_status 200 (fst (confirmed_email now token w)) = 500.
Proof.
  intros Hd Hs.
  assert (E : get_email_from_token now token = Raise (KeyError "sub")).
  { unfold get_email_from_token. rewrite Hd. simpl. now rewrite Hs. }
  unfold confirmed_email, reset_password, bind, lift. rewrite E. repeat split.
Qed.

Lemma purpose_token_without_subject_witness :
  @confirmed_email demo_config 60 subjectless_token demo_world
  = (Raise (KeyError "sub"), demo_world) /\
  @reset_password demo_config 60 subjectless_token demo_world
  = (Raise (KeyError "sub"), demo_world).
Proof.
  destruct (@purpose_token_without_subject demo_config 60 subjectless_token
              {| sub := None; iat := Some 0; exp := Some 604800 |} demo_world)
    as (Hc & Hr & _); try reflexivity.
  split; [exact Hc|exact Hr].
Defined.

(** ** ForgotPassword and ResetPassword *)



(** ForgotPassword never answers with success, whatever it is sent, and it
    leaves every row, the id sequence, the cache and the task queue as they
    were. *)
Theorem forgot_password_never_succeeds `{Config} `{CryptContext} data base_url w :
  (exists e, fst (forgot_password data base_url w) = Raise e) /\
  rows (snd (forgot_password data base_url w)) = rows w /\
  next_id (snd (forgot_password data base_url w)) = next_id w /\
  redis_db (snd (forgot_password data base_url w)) = redis_db w /\
  background_tasks (snd (forgot_password data base_url w)) = background_tasks w.
Proof.
  unfold forgot_password, bind, UserService.get_user_by_email,
    UserService.get_user_by_username, UserRepository.get_user_by_email,
    UserRepository.get_user_by_username, lift, ret, raise, call_on_class,
    Hash.get_password_hash.
  rewrite execute_eq.
  destruct (scalar_one_or_none
              (List.filter (matches (SelectByEmail (user_data data))) (rows w)))
    as [[u|]|e]; simpl.
  - destruct (call_on_instance Hash.verify_password _) as [[|]|e]; simpl;
      try solve [repeat split; eauto].
    destruct (bool_decide _); simpl; solve [repeat split; eauto].
  - destruct (scalar_one_or_none
                (List.filter (matches (SelectByUsername (user_data data))) (rows w)))
      as [[u|]|e]; simpl; try solve [repeat split; eauto].
    destruct (call_on_instance Hash.verify_password _) as [[|]|e]; simpl;
      try solve [repeat split; eauto].
    destruct (bool_decide _); simpl; solve [repeat split; eauto].
  - repeat split; eauto.
Qed.

(** What keeps a property of the table: everything that leaves the rows
    alone. *)
Lemma table_execute P q : on_table P -> preserves P (execute q).
Proof. intros HP w Hw. now apply (HP w). Qed.

Lemma table_add_task P t : on_table P -> preserves P (add_task t).
Proof. intros HP w Hw. now apply (HP w). Qed.

Lemma table_redis_get P now key : on_table P -> preserves P (redis_get now key).
Proof.
  intros HP w Hw. unfold redis_get. destruct (reads_fail (redis_db w)); [exact Hw|].
  destruct (entries (redis_db w) !! key) as [[v e]|]; [|exact Hw].
  now destruct (Z.ltb now e).
Qed.

Lemma table_redis_set P now key value ex :
  on_table P -> preserves P (redis_set now key value ex).
Proof.
  intros HP w Hw. unfold redis_set. destruct (writes_fail (redis_db w)); [exact Hw|].
  now apply (HP w).
Qed.

Ltac frame HP :=
  repeat first
    [ apply preserves_ret | apply preserves_raise | apply preserves_lift
    | apply (table_execute _ _ HP) | apply (table_add_task _ _ HP)
    | apply (table_redis_get _ _ _ HP) | apply (table_redis_set _ _ _ _ _ HP)
    | apply preserves_bind; [|intros]
    | match goal with
      | |- preserves _ (match ?x with _ => _ end) => destruct x
      | |- preserves _ (if ?b then _ else _) => destruct b
      end ].

Lemma on_table_rows_eq rs : on_table (fun w => rows w = rs).
Proof. intros w w' E Hw. now rewrite <- E. Qed.

Lemma on_table_no_staged_digest : on_table no_staged_digest.
Proof. intros w w' E Hw. unfold no_staged_digest in *. now rewrite <- E. Qed.

(** The resolver and the login route never write to the table. *)
Lemma get_current_user_rows `{Config} now token w :
  rows (snd (get_current_user now token w)) = rows w.
Proof.
  assert (Hp : preserves (fun w' => rows w' = rows w) (get_current_user now token)).
  { unfold get_current_user. frame (on_table_rows_eq (rows w)). }
  now apply Hp.
Qed.

Lemma login_user_rows `{Config} `{CryptContext} now form_data w :
  rows (snd (login_user now form_data w)) = rows w.
Proof.
  assert (Hp : preserves (fun w' => rows w' = rows w) (login_user now form_data)).
  { unfold login_user, UserService.get_user_by_username,
      UserRepository.get_user_by_username.
    frame (on_table_rows_eq (rows w)). }
  now apply Hp.
Qed.

Lemma forgot_password_rows `{Config} `{CryptContext} data base_url w :
  rows (snd (forgot_password data base_url w)) = rows w.
Proof.
  unfold forgot_password, bind, UserService.get_user_by_email,
    UserService.get_user_by_username, UserRepository.get_user_by_email,
    UserRepository.get_user_by_username, lift, ret, raise, call_on_class,
    Hash.get_password_hash.
  rewrite execute_eq.
  destruct (scalar_one_or_none
              (List.filter (matches (SelectByEmail (user_data data))) (rows w)))
    as [[u|]|e]; simpl.
  - destruct (call_on_instance Hash.verify_password _) as [[|]|e]; simpl;
      try reflexivity.
    now destruct (bool_decide _).
  - destruct (scalar_one_or_none
                (List.filter (matches (SelectByUsername (user_data data))) (rows w)))
      as [[u|]|e]; simpl; try reflexivity.
    destruct (call_on_instance Hash.verify_password _) as [[|]|e]; simpl;
      try reflexivity.
    now destruct (bool_decide _).
  - reflexivity.
Qed.

Lemma no_staged_setattr_commit i f :
  (forall r, User.temp_password r = None -> User.temp_password (f r) = None) ->
  preserves no_staged_digest (setattr_commit i f).
Proof.
  intros Hf w Hw. unfold setattr_commit, no_staged_digest in *. simpl.
  rewrite List.Forall_forall in *. intros r Hr. apply in_map_iff in Hr.
  destruct Hr as (r0 & <- & Hr0). specialize (Hw r0 Hr0).
  destruct (Z.eqb (User.id r0) i); auto.
Qed.

Lemma no_staged_add_commit_refresh new :
  (forall i, User.temp_password (new i) = None) ->
  preserves no_staged_digest (add_commit_refresh new).
Proof.
  intros Hnew w Hw. unfold add_commit_refresh.
  destruct (existsb _ (rows w)); [exact Hw|].
  destruct (existsb _ (rows w)); [exact Hw|].
  unfold no_staged_digest in *. simpl. apply List.Forall_app. split; [exact Hw|].
  constructor; [apply Hnew|constructor].
Qed.

Ltac keep_unstaged :=
  repeat first
    [ apply no_staged_setattr_commit; intros; simpl; solve [auto]
    | apply no_staged_add_commit_refresh; intros; reflexivity
    | progress frame on_table_no_staged_digest ].

(** No route puts a digest into [temp_password]: from a table without a
    staged digest, registration, login, confirmation, the request for a new
    confirmation mail, ForgotPassword, ResetPassword, the resolver and the
    avatar route all lead to a table without one.  The reset flow has
    nothing to promote. *)
Theorem no_route_stages_a_digest `{Config} `{CryptContext} :
  (forall user_data base_url avatar,
     preserves no_staged_digest (register_user user_data base_url avatar)) /\
  (forall now form_data, preserves no_staged_digest (login_user now form_data)) /\
  (forall now token, preserves no_staged_digest (confirmed_email now token)) /\
  (forall confirmed body_email base_url,
     preserves no_staged_digest (request_email confirmed body_email base_url)) /\
  (forall data base_url, preserves no_staged_digest (forgot_password data base_url)) /\
  (forall now token, preserves no_staged_digest (reset_password now token)) /\
  (forall now token, preserves no_staged_digest (get_current_user now token)) /\
  (forall upload_file now token file,
     preserves no_staged_digest (UsersApi.update_avatar_user upload_file now token file)).
Proof.
  repeat split; intros.
  - unfold register_user, UserService.get_user_by_email, UserService.create_user,
      UserRepository.get_user_by_email, UserRepository.create_user.
    keep_unstaged.
  - unfold login_user, UserService.get_user_by_username,
      UserRepository.get_user_by_username.
    keep_unstaged.
  - unfold confirmed_email, UserService.get_user_by_email,
      UserService.set_user_verified, UserRepository.set_user_verified,
      UserRepository.get_user_by_email.
    keep_unstaged.
  - unfold request_email, UserService.get_user_by_email,
      UserRepository.get_user_by_email.
    keep_unstaged.
  - intros w Hw. unfold no_staged_digest. now rewrite forgot_password_rows.
  - unfold reset_password, UserService.get_user_by_email,
      UserService.set_new_password, UserService.set_temp_password,
      UserRepository.set_new_password, UserRepository.set_temp_password,
      UserRepository.get_user_by_email.
    keep_unstaged.
  - unfold get_current_user. keep_unstaged.
  - unfold UsersApi.update_avatar_user, admin_dependency, get_current_user,
      UserService.update_avatar_url, UserRepository.update_avatar_url,
      UserRepository.get_user_by_email.
    keep_unstaged.
Qed.

(** A purpose token works any number of times while it is valid.  Used a
    second time on the reset route, it makes the route write the now empty
    [temp_password] into [password]: whatever was staged before the first
    call, after the second call the principal's password is null. *)
Theorem reset_password_replay `{Config} t1 t2 token1 token2 p1 p2 w u :
  jwt_decode t1 token1 JWT_SECRET [JWT_ALGORITHM] = Ok p1 ->
  sub p1 = Some (User.email u) ->
  jwt_decode t2 token2 JWT_SECRET [JWT_ALGORITHM] = Ok p2 ->
  sub p2 = Some (User.email u) ->
  List.filter (matches (SelectByEmail (User.email u))) (rows w) = [u] ->
  fst (reset_password t2 token2 (snd (reset_password t1 token1 w)))
  = Ok "Password successfully changed" /\
  List.filter (matches (SelectByEmail (User.email u)))
    (rows (snd (reset_password t2 token2 (snd (reset_password t1 token1 w)))))
  = [User.set_temp_password None (User.set_password None u)].
Proof.
  intros Hd1 Hs1 Hd2 Hs2 Hq.
  pose proof (get_email_from_token_decoded t1 token1 p1 _ Hd1 Hs1) as Htok1.
  pose proof (get_email_from_token_decoded t2 token2 p2 _ Hd2 Hs2) as Htok2.
  pose proof (reset_password_row t1 token1 _ w u Htok1 Hq) as Hq1.
  split.
  - now destruct (reset_password_run t2 token2 _ _ _ Htok2 Hq1).
  - rewrite (reset_password_row t2 token2 _ _ _ Htok2 Hq1). reflexivity.
Qed.

Lemma reset_password_replay_witness :
  User.password <$>
    rows (snd (@reset_password demo_config 60 alice_mail_token pending_world))
  = [Some "$2b$pw2"] /\
  User.password <$>
    rows (snd (@reset_password demo_config 90 alice_mail_token
                 (snd (@reset_password demo_config 60 alice_mail_token pending_world))))
  = [None].
Proof.
  destruct (@reset_password_replay demo_config 60 90 alice_mail_token alice_mail_token
              {| sub := Some "alice@x.com"; iat := Some 0; exp := Some 604800 |}
              {| sub := Some "alice@x.com"; iat := Some 0; exp := Some 604800 |}
              pending_world alice_pending) as [_ Hrow]; try reflexivity.
  split; [reflexivity|].
  change (rows (snd (@reset_password demo_config 90 alice_mail_token
            (snd (@reset_password demo_config 60 alice_mail_token pending_world)))))
    with (List.filter (matches (SelectByEmail (User.email alice_pending)))
            (rows (snd (@reset_password demo_config 90 alice_mail_token
               (snd (@reset_password demo_config 60 alice_mail_token pending_world)))))).
  rewrite Hrow. reflexivity.
Defined.

(** The failures of the reset route: a token that does not decode is
    answered with 422 before anything is looked up; a token for an email
    that no principal has is answered with 400; no row changes. *)
Theorem reset_password_failures `{Config} now token w :
  (forall e,
     jwt_decode now token JWT_SECRET [JWT_ALGORITHM] = Raise e ->
     reset_password now token w
     = (Raise (HTTPException HTTP_422_UNPROCESSABLE_ENTITY bad_token_detail), w)) /\
  (forall payload email,
     jwt_decode now token JWT_SECRET [JWT_ALGORITHM] = Ok payload ->
     sub payload = Some email ->
     List.filter (matches (SelectByEmail email)) (rows w) = [] ->
     reset_password now token w
     = (Raise (HTTPException HTTP_400_BAD_REQUEST "Verification error"),
        logged (SelectByEmail email) w)).
Proof.
  split.
  - intros e Hd. pose proof (jwt_decode_raises_JWTError _ _ _ _ _ Hd) as ->.
    unfold reset_password, bind, lift, get_email_from_token. now rewrite Hd.
  - intros payload email Hd Hs Hq.
    unfold reset_password, bind, lift.
    rewrite (get_email_from_token_decoded now token payload email Hd Hs).
    unfold UserService.get_user_by_email, UserRepository.get_user_by_email.
    rewrite execute_eq, Hq. reflexivity.
Qed.

Lemma reset_password_failures_witness :
  response_status 200
    (fst (@reset_password demo_config 604801 alice_mail_token demo_world)) = 422 /\
  response_status 200
    (fst (@reset_password demo_config 60
            (@create_email_token demo_config 0 (sub_only "nobody@x.com")) demo_world))
  = 400.
Proof.
  destruct (@reset_password_failures demo_config 604801 alice_mail_token demo_world)
    as [H422 _].
  destruct (@reset_password_failures demo_config 60
              (@create_email_token demo_config 0 (sub_only "nobody@x.com")) demo_world)
    as [_ H400].
  split.
  - rewrite (H422 JWTError); reflexivity.
  - rewrite (H400 {| sub := Some "nobody@x.com"; iat := Some 0; exp := Some 604800 |}
               "nobody@x.com"); reflexivity.
Defined.

(** ** The request for a new confirmation mail *)

(** The route reads [user.confirmed] before it tests [user].  For an email
    that no principal has it raises [AttributeError] and queues nothing;
    for a principal it queues one confirmation mail when the attribute is
    falsy, none when it is truthy, and it raises what the read raises when
    the row has no such attribute.  No row changes. *)
Theorem request_email_cases confirmed body_email base_url w :
  (List.filter (matches (SelectByEmail body_email)) (rows w) = [] ->
   request_email confirmed body_email base_url w
   = (Raise (AttributeError "confirmed"), logged (SelectByEmail body_email) w)) /\
  (forall u,
     List.filter (matches (SelectByEmail body_email)) (rows w) = [u] ->
     match confirmed u with
     | Ok true =>
         request_email confirmed body_email base_url w
         = (Ok "Ваша електронна пошта вже підтверджена",
            logged (SelectByEmail body_email) w)
     | Ok false =>
         fst (request_email confirmed body_email base_url w)
         = Ok "Перевірте свою електронну пошту для підтвердження" /\
         background_tasks (snd (request_email confirmed body_email base_url w))
         = (background_tasks w
            ++ [send_email_for_confirm (User.email u) (User.username u) base_url])%list /\
         rows (snd (request_email confirmed body_email base_url w)) = rows w
     | Raise e =>
         request_email confirmed body_email base_url w
         = (Raise e, logged (SelectByEmail body_email) w)
     end).
Proof.
  unfold request_email, bind, lift, UserService.get_user_by_email,
    UserRepository.get_user_by_email.
  rewrite execute_eq. split.
  - intros Hq. now rewrite Hq.
  - intros u Hq. rewrite Hq. simpl.
    destruct (confirmed u) as [[|]|e]; simpl; auto.
Qed.

Lemma request_email_cases_witness :
  fst (request_email (fun _ => Raise (AttributeError "confirmed")) "nobody@x.com"
         "http://testserver/" demo_world)
  = Raise (AttributeError "confirmed") /\
  background_tasks
    (snd (request_email (fun u => Ok (User.is_verified u)) "bob@x.com"
            "http://testserver/" crossed_world))
  = [send_email_for_confirm "bob@x.com" "bob" "http://testserver/"].
Proof.
  destruct (request_email_cases (fun _ => Raise (AttributeError "confirmed"))
              "nobody@x.com" "http://testserver/" demo_world) as [Hnone _].
  destruct (request_email_cases (fun u => Ok (User.is_verified u))
              "bob@x.com" "http://testserver/" crossed_world) as [_ Hbob].
  split.
  - rewrite Hnone; reflexivity.
  - specialize (Hbob bob eq_refl). simpl in Hbob.
    destruct Hbob as (_ & Htasks & _). exact Htasks.
Defined.

(** ** The avatar *)

Lemma matches_set_avatar_url q a r :
  matches q (User.set_avatar_url a r) = matches q r.
Proof. now destruct q. Qed.

Lemma update_avatar_url_run email url w u :
  List.filter (matches (SelectByEmail email)) (rows w) = [u] ->
  fst (UserRepository.update_avatar_url email url w)
  = Ok (User.set_avatar_url (Some url) u) /\
  List.filter (matches (SelectByEmail email))
    (rows (snd (UserRepository.update_avatar_url email url w)))
  = [User.set_avatar_url (Some url) u].
Proof.
  intros Hq.
  unfold UserRepository.update_avatar_url, UserRepository.get_user_by_email, bind.
  rewrite execute_eq, Hq. simpl. split; [reflexivity|].
  rewrite filter_matches_map
    by (intros r; apply matches_update; intros x; apply matches_set_avatar_url).
  rewrite Hq. simpl. now rewrite Z.eqb_refl.
Qed.

(** [update_avatar_url] writes the address into the row that has the email,
    returns that row with the new address, and leaves the other fields and
    the rows with another id as they were; for an email that no row has it
    raises [AttributeError] and changes nothing. *)
Theorem update_avatar_url_cases email url w :
  (List.filter (matches (SelectByEmail email)) (rows w) = [] ->
   UserRepository.update_avatar_url email url w
   = (Raise (AttributeError "avatar_url"), logged (SelectByEmail email) w)) /\
  (forall u,
     List.filter (matches (SelectByEmail email)) (rows w) = [u] ->
     fst (UserRepository.update_avatar_url email url w)
     = Ok (User.set_avatar_url (Some url) u) /\
     List.filter (matches (SelectByEmail email))
       (rows (snd (UserRepository.update_avatar_url email url w)))
     = [User.set_avatar_url (Some url) u] /\
     (forall r, In r (rows w) -> User.id r <> User.id u ->
                In r (rows (snd (UserRepository.update_avatar_url email url w))))).
Proof.
  unfold UserRepository.update_avatar_url, UserRepository.get_user_by_email, bind.
  rewrite execute_eq. split.
  - intros Hq. now rewrite Hq.
  - intros u Hq. rewrite Hq. simpl. split; [reflexivity|]. split.
    + rewrite filter_matches_map
        by (intros r; apply matches_update; intros x; apply matches_set_avatar_url).
      rewrite Hq. simpl. now rewrite Z.eqb_refl.
    + intros r Hr Hne. apply in_map_iff. exists r. split; [|exact Hr].
      destruct (Z.eqb_spec (User.id r) (User.id u)); [contradiction|reflexivity].
Qed.

Lemma update_avatar_url_cases_witness :
  fst (UserRepository.update_avatar_url "bob@x.com" "https://media.example/bob"
         crossed_world)
  = Ok (User.set_avatar_url (Some "https://media.example/bob") bob) /\
  rows (snd (UserRepository.update_avatar_url "bob@x.com" "https://media.example/bob"
               crossed_world))
  = [alice; User.set_avatar_url (Some "https://media.example/bob") bob] /\
  fst (UserRepository.update_avatar_url "nobody@x.com" "https://media.example/x"
         crossed_world)
  = Raise (AttributeError "avatar_url").
Proof.
  destruct (update_avatar_url_cases "bob@x.com" "https://media.example/bob"
              crossed_world) as [_ Hbob].
  destruct (update_avatar_url_cases "nobody@x.com" "https://media.example/x"
              crossed_world) as [Hnone _].
  destruct (Hbob bob eq_refl) as (Hret & _ & _).
  split; [exact Hret|]. split; [reflexivity|]. now rewrite Hnone.
Defined.

(** The avatar route behind the admin gate: a resolved principal that is no
    administrator is answered with 403 and no row changes; for an
    administrator the address that the upload service returns is written
    into the administrator's own row, and an error of the upload service
    ends the route before anything is written. *)
Theorem update_avatar_user_cases `{Config} upload_file now token file w u :
  fst (get_current_user now token w) = Ok u ->
  (User.role u <> ADMIN ->
   response_status 200 (fst (UsersApi.update_avatar_user upload_file now token file w))
   = 403 /\
   rows (snd (UsersApi.update_avatar_user upload_file now token file w)) = rows w) /\
  (User.role u = ADMIN ->
   forall e,
     upload_file file (User.username u) = Raise e ->
     fst (UsersApi.update_avatar_user upload_file now token file w) = Raise e /\
     rows (snd (UsersApi.update_avatar_user upload_file now token file w)) = rows w) /\
  (User.role u = ADMIN ->
   forall url,
     upload_file file (User.username u) = Ok url ->
     List.filter (matches (SelectByEmail (User.email u))) (rows w) = [u] ->
     fst (UsersApi.update_avatar_user upload_file now token file w)
     = Ok (User.set_avatar_url (Some url) u) /\
     List.filter (matches (SelectByEmail (User.email u)))
       (rows (snd (UsersApi.update_avatar_user upload_file now token file w)))
     = [User.set_avatar_url (Some url) u]).
Proof.
  intros Hg. pose proof (get_current_user_rows now token w) as Hrows.
  unfold UsersApi.update_avatar_user, admin_dependency, bind, lift,
    get_current_admin_user.
  destruct (get_current_user now token w) as [[x|err] w1]; simpl in Hg, Hrows;
    [|discriminate].
  injection Hg as ->. split; [|split].
  - intros Hrole. rewrite bool_decide_eq_false_2 by exact Hrole. simpl. auto.
  - intros Hrole e Hup. rewrite bool_decide_eq_true_2 by exact Hrole. simpl.
    rewrite Hup. simpl. auto.
  - intros Hrole url Hup Hq. rewrite bool_decide_eq_true_2 by exact Hrole. simpl.
    rewrite Hup. rewrite <- Hrows in Hq.
    destruct (update_avatar_url_run (User.email u) url w1 u Hq) as (Hret & Hrow).
    unfold UserService.update_avatar_url. split; [exact Hret|exact Hrow].
Qed.

Lemma update_avatar_user_cases_witness :
  response_status 200
    (fst (@UsersApi.update_avatar_user demo_config demo_upload 200
            alice_session_token "photo.png" staff_world)) = 403 /\
  fst (@UsersApi.update_avatar_user demo_config demo_upload 200
         (@create_access_token demo_config 100 (sub_only "root") None)
         "photo.png" staff_world)
  = Ok (User.set_avatar_url (Some "https://media.example/root") root).
Proof.
  destruct (@update_avatar_user_cases demo_config demo_upload 200
              alice_session_token "photo.png" staff_world alice eq_refl)
    as (Huser & _ & _).
  destruct (@update_avatar_user_cases demo_config demo_upload 200
              (@create_access_token demo_config 100 (sub_only "root") None)
              "photo.png" staff_world root eq_refl) as (_ & _ & Hadmin).
  split.
  - apply Huser. discriminate.
  - apply (Hadmin eq_refl "https://media.example/root"); reflexivity.
Defined.

(** ** The primary key *)

Lemma primary_key_request_email confirmed body_email base_url :
  preserves primary_key_ok (request_email confirmed body_email base_url).
Proof.
  unfold request_email, UserService.get_user_by_email,
    UserRepository.get_user_by_email.
  preserve.
Qed.

Lemma primary_key_update_avatar_user `{Config} upload_file now token file :
  preserves primary_key_ok (UsersApi.update_avatar_user upload_file now token file).
Proof.
  unfold UsersApi.update_avatar_user, admin_dependency, get_current_user,
    UserService.update_avatar_url, UserRepository.update_avatar_url,
    UserRepository.get_user_by_email.
  preserve.
Qed.

(** Ids stay unique.  Registrations and email confirmations, in any number
    and with any input, keep the primary key: afterwards no two rows share
    an id, every id is below the next value of the sequence, and a SELECT by
    id finds at most one row. *)
Theorem routes_keep_primary_key `{Config} `{CryptContext}
  (registrations : list (UserCreate * string * option string))
  (confirmations : list (Z * Jwt)) w :
  primary_key_ok w ->
  primary_key_ok
    (fold_left (fun w c => snd (confirmed_email (fst c) (snd c) w)) confirmations
       (fold_left (fun w r => snd (register_user (fst (fst r)) (snd (fst r)) (snd r) w))
          registrations w)) /\
  forall i,
    (length (List.filter (matches (SelectById i))
               (rows (fold_left (fun w c => snd (confirmed_email (fst c) (snd c) w))
                        confirmations
                        (fold_left (fun w r => snd (register_user (fst (fst r))
                                                      (snd (fst r)) (snd r) w))
                           registrations w)))) <= 1)%nat.
Proof.
  intros Hw.
  set (w1 := fold_left _ registrations w).
  assert (H1 : primary_key_ok w1).
  { subst w1. revert w Hw.
    induction registrations as [|r rs IH]; intros w Hw; simpl; [exact Hw|].
    apply IH. now apply primary_key_register_user. }
  clearbody w1. clear Hw.
  set (w2 := fold_left _ confirmations w1).
  assert (H2 : primary_key_ok w2).
  { subst w2. revert w1 H1.
    induction confirmations as [|c cs IH]; intros w1 H1; simpl; [exact H1|].
    apply IH. now apply primary_key_confirmed_email. }
  clearbody w2. split; [exact H2|]. intros i.
  destruct H2 as [Hnd _].
  induction (rows w2) as [|r rs IH]; simpl; [lia|].
  apply List.NoDup_cons_iff in Hnd. destruct Hnd as [Hnotin Hnd].
  destruct (Z.eqb_spec (User.id r) i) as [E|_]; [|now apply IH].
  simpl. assert (List.filter (matches (SelectById i)) rs = []) as ->; [|simpl; lia].
  clear IH Hnd. induction rs as [|x rs IHrs]; simpl; [reflexivity|].
  destruct (Z.eqb_spec (User.id x) i) as [E'|_].
  - exfalso. apply Hnotin. simpl. left. congruence.
  - apply IHrs. intros Hin. apply Hnotin. simpl. now right.
Qed.

Lemma routes_keep_primary_key_witness :
  primary_key_ok
    (snd (@register_user demo_config demo_crypt mallory_request
            "http://testserver/" None demo_world)) /\
  User.id <$> rows (snd (@register_user demo_config demo_crypt mallory_request
                           "http://testserver/" None demo_world)) = [1; 2].
Proof.
  split; [|reflexivity].
  apply (@routes_keep_primary_key demo_config demo_crypt
           [(mallory_request, "http://testserver/", None)] [] demo_world).
  split.
  - repeat constructor. simpl. intros [].
  - repeat constructor.
Defined.

(** ** Contacts *)

(** The listing of contacts reads only: it returns contacts of the given
    user and of nobody else; without a query, or with the empty string as
    query, it returns all of them in table order; a query can only narrow
    that list. *)
Theorem get_all_isolation `{Ilike} user query s :
  snd (ContactRepository.get_all user query s) = s /\
  exists found,
    fst (ContactRepository.get_all user query s) = Ok found /\
    (forall c, In c found ->
               In c (contacts s) /\ Contact.user_id c = User.id user) /\
    (forall c, In c found -> In c (owned_by user s)) /\
    (query = None \/ query = Some "" -> found = owned_by user s).
Proof.
  unfold ContactRepository.get_all. simpl. split; [reflexivity|].
  eexists. split; [reflexivity|].
  assert (Hsub : forall c,
             In c (List.filter
                     (if py_bool_str query
                      then fun c => Z.eqb (Contact.user_id c) (User.id user)
                                    && (ilike (Contact.name c) ("%" ++ default "" query ++ "%")
                                        || ilike (Contact.surname c) ("%" ++ default "" query ++ "%")
                                        || ilike (Contact.email c) ("%" ++ default "" query ++ "%"))
                      else fun c => Z.eqb (Contact.user_id c) (User.id user))
                     (contacts s)) ->
             In c (owned_by user s)).
  { intros c Hc. apply filter_In in Hc. destruct Hc as [Hin Hc].
    apply filter_In. split; [exact Hin|].
    destruct (py_bool_str query); [|exact Hc].
    now apply andb_true_iff in Hc. }
  split; [|split].
  - intros c Hc. apply Hsub in Hc. apply filter_In in Hc.
    destruct Hc as [Hin Hc]. split; [exact Hin|]. now apply Z.eqb_eq.
  - exact Hsub.
  - now intros [-> | ->].
Qed.

(** A created contact takes the next id and the id of the user it was
    created for; it is found again by that id, it closes the listing of
    that user, and the ids of the table stay unique. *)
Theorem create_then_get `{Ilike} data user s :
  contact_key_ok s ->
  exists c,
    fst (ContactRepository.create data user s) = Ok c /\
    Contact.id c = next_contact_id s /\
    Contact.user_id c = User.id user /\
    fst (ContactRepository.get_by_id (Contact.id c)
           (snd (ContactRepository.create data user s))) = Ok (Some c) /\
    fst (ContactRepository.get_all user None (snd (ContactRepository.create data user s)))
    = Ok (owned_by user s ++ [c])%list /\
    contact_key_ok (snd (ContactRepository.create data user s)).
Proof.
  intros [Hnd Hlt]. unfold ContactRepository.create. simpl.
  eexists. split; [reflexivity|]. split; [reflexivity|]. split; [reflexivity|].
  rewrite List.Forall_forall in Hlt.
  assert (Hnone : List.filter (fun c => Z.eqb (Contact.id c) (next_contact_id s))
                    (contacts s) = []).
  { clear Hnd. induction (contacts s) as [|x l IH]; simpl; [reflexivity|].
    destruct (Z.eqb_spec (Contact.id x) (next_contact_id s)) as [E|_].
    - specialize (Hlt x (or_introl eq_refl)). lia.
    - apply IH. intros c Hc. apply Hlt. now right. }
  split; [|split].
  - unfold ContactRepository.get_by_id. simpl.
    rewrite List.filter_app, Hnone. simpl. now rewrite Z.eqb_refl.
  - unfold ContactRepository.get_all, owned_by. simpl.
    rewrite List.filter_app. simpl. now rewrite Z.eqb_refl.
  - unfold contact_key_ok. simpl. split.
    + rewrite map_app. simpl. apply List.NoDup_app. repeat split; auto.
      * repeat constructor. intros [].
      * intros x Hx [<-|[]]. apply in_map_iff in Hx.
        destruct Hx as (c & E & Hc). specialize (Hlt c Hc). lia.
    + apply List.Forall_forall. intros c Hc. apply in_app_iff in Hc.
      destruct Hc as [Hc|[<-|[]]]; [specialize (Hlt c Hc)|simpl]; lia.
Qed.

Lemma create_then_get_witness :
  exists c,
    fst (ContactRepository.create demo_contact_request alice demo_contacts) = Ok c /\
    Contact.id c = 3 /\
    fst (@ContactRepository.get_all demo_ilike alice None
           (snd (ContactRepository.create demo_contact_request alice demo_contacts)))
    = Ok [john; c].
Proof.
  destruct (@create_then_get demo_ilike demo_contact_request alice demo_contacts)
    as (c & Hc & Hid & _ & _ & Hall & _).
  - split.
    + repeat constructor; simpl; intuition discriminate.
    + repeat constructor.
  - exists c. split; [exact Hc|]. split; [exact Hid|exact Hall].
Defined.

Lemma filter_id_after_delete (l : list Contact.t) gone other :
  List.filter (fun c => Z.eqb (Contact.id c) other)
    (List.filter (fun c => negb (Z.eqb (Contact.id c) gone)) l)
  = if Z.eqb other gone then []
    else List.filter (fun c => Z.eqb (Contact.id c) other) l.
Proof.
  induction l as [|x l IH]; simpl; [now destruct (Z.eqb other gone)|].
  destruct (Z.eqb_spec (Contact.id x) gone) as [Eg|Ng]; simpl.
  - rewrite IH. destruct (Z.eqb_spec other gone) as [Eo|No]; [reflexivity|].
    destruct (Z.eqb_spec (Contact.id x) other); [congruence|reflexivity].
  - rewrite IH. destruct (Z.eqb_spec other gone) as [Eo|No].
    + destruct (Z.eqb_spec (Contact.id x) other); [congruence|reflexivity].
    + reflexivity.
Qed.

(** The routes by id.  An id without a row is answered with 404 by [get]
    and by [delete], and nothing changes.  When [get] finds a contact,
    [delete] for the same id answers "deleted", a later [get] for it is
    answered with 404, the other contacts are found as before and the
    users' side is not touched.  Neither route takes a principal: the owner
    of the contact is not consulted. *)
Theorem contact_routes_by_id contact_id app :
  (List.filter (fun c => Z.eqb (Contact.id c) contact_id) (contacts (snd app)) = [] ->
   ContactsApi.get contact_id app = (Raise (HTTPException 404 "Not Found"), app) /\
   ContactsApi.delete contact_id app = (Raise (HTTPException 404 "Not Found"), app)) /\
  (forall c,
     fst (ContactsApi.get contact_id app) = Ok c ->
     fst (ContactsApi.delete contact_id app) = Ok "deleted" /\
     fst (snd (ContactsApi.delete contact_id app)) = fst app /\
     fst (ContactsApi.get contact_id (snd (ContactsApi.delete contact_id app)))
     = Raise (HTTPException 404 "Not Found") /\
     forall other,
       other <> contact_id ->
       fst (ContactsApi.get other (snd (ContactsApi.delete contact_id app)))
       = fst (ContactsApi.get other app)).
Proof.
  destruct app as [w s].
  unfold ContactsApi.get, ContactsApi.delete, no_dependency,
    ContactService.get_contact, ContactService.delete_contact,
    ContactRepository.get_by_id, ContactRepository.delete.
  simpl. split.
  - intros Hq. rewrite Hq. simpl. split; reflexivity.
  - intros c.
    destruct (List.filter (fun c => Z.eqb (Contact.id c) contact_id) (contacts s))
      as [|x [|y l]] eqn:Hq; simpl; try discriminate.
    intros [= ->].
    assert (Hid : Contact.id c = contact_id).
    { assert (Hin : In c (List.filter (fun c => Z.eqb (Contact.id c) contact_id)
                            (contacts s))) by (rewrite Hq; now left).
      apply filter_In in Hin. now apply Z.eqb_eq. }
    split; [reflexivity|]. split; [reflexivity|]. rewrite Hid. split.
    + rewrite filter_id_after_delete, Z.eqb_refl. reflexivity.
    + intros other Hne. rewrite filter_id_after_delete.
      destruct (Z.eqb_spec other contact_id); [contradiction|].
      now destruct (contact_one_or_none _) as [[found|]|err].
Qed.

Lemma contact_routes_by_id_witness :
  fst (ContactsApi.delete 2 (demo_world, demo_contacts)) = Ok "deleted" /\
  fst (ContactsApi.get 2 (snd (ContactsApi.delete 2 (demo_world, demo_contacts))))
  = Raise (HTTPException 404 "Not Found") /\
  fst (ContactsApi.get 1 (snd (ContactsApi.delete 2 (demo_world, demo_contacts))))
  = Ok john /\
  fst (ContactsApi.get 9 (demo_world, demo_contacts))
  = Raise (HTTPException 404 "Not Found").
Proof.
  destruct (contact_routes_by_id 2 (demo_world, demo_contacts)) as [_ Hfound].
  destruct (contact_routes_by_id 9 (demo_world, demo_contacts)) as [Hmissing _].
  destruct (Hfound jane eq_refl) as (Hdel & _ & Hgone & Hothers).
  destruct (Hmissing eq_refl) as [H404 _].
  split; [exact Hdel|]. split; [exact Hgone|]. split.
  - rewrite (Hothers 1); [reflexivity|discriminate].
  - now rewrite H404.
Defined.

Lemma get_all_rows `{Ilike} user query s :
  exists found,
    fst (ContactRepository.get_all user query s) = Ok found /\
    forall c, In c found -> Contact.user_id c = User.id user.
Proof.
  unfold ContactRepository.get_all. simpl. eexists. split; [reflexivity|].
  intros c Hc. apply filter_In in Hc. destruct Hc as [_ Hc].
  destruct (py_bool_str query).
  - apply andb_true_iff in Hc. now apply Z.eqb_eq.
  - now apply Z.eqb_eq.
Qed.

(** The two contact routes behind the resolver act for the principal the
    resolver returns: when the resolution fails its error is the answer and
    the contacts are untouched; when it returns a principal, [create]
    appends a contact with that principal's id and [list_contacts] returns
    contacts with that principal's id only. *)
Theorem contact_routes_for_principal `{Config} `{Ilike} now token contact q app :
  (forall e,
     fst (get_current_user now token (fst app)) = Raise e ->
     fst (ContactsApi.create now token contact app) = Raise e /\
     snd (snd (ContactsApi.create now token contact app)) = snd app /\
     fst (ContactsApi.list_contacts now token q app) = Raise e) /\
  (forall u,
     fst (get_current_user now token (fst app)) = Ok u ->
     (exists c,
        fst (ContactsApi.create now token contact app) = Ok c /\
        Contact.user_id c = User.id u /\
        contacts (snd (snd (ContactsApi.create now token contact app)))
        = (contacts (snd app) ++ [c])%list) /\
     (exists found,
        fst (ContactsApi.list_contacts now token q app) = Ok found /\
        snd (snd (ContactsApi.list_contacts now token q app)) = snd app /\
        forall c, In c found -> Contact.user_id c = User.id u)).
Proof.
  destruct app as [w s].
  unfold ContactsApi.create, ContactsApi.list_contacts, depends_get_current_user,
    ContactService.create_contact, ContactService.list_contacts.
  simpl fst. simpl snd.
  destruct (get_current_user now token w) as [[x|err] w1]; simpl; split.
  - discriminate.
  - intros u [= ->]. split.
    + eexists. repeat split; reflexivity.
    + destruct (get_all_rows u q s) as (found & Hfound & Hown).
      unfold ContactRepository.get_all in *. simpl in *.
      eexists. split; [reflexivity|]. split; [reflexivity|].
      injection Hfound as <-. exact Hown.
  - intros e [= ->]. auto.
  - discriminate.
Qed.

Lemma contact_routes_for_principal_witness :
  fst (@ContactsApi.create demo_config 200 (Malformed "x") demo_contact_request
         (demo_world, demo_contacts)) = Raise credentials_exception /\
  exists c,
    fst (@ContactsApi.create demo_config 200 alice_session_token demo_contact_request
           (demo_world, demo_contacts)) = Ok c /\
    Contact.user_id c = 1.
Proof.
  destruct (@contact_routes_for_principal demo_config demo_ilike 200 (Malformed "x")
              demo_contact_request None (demo_world, demo_contacts)) as [Hfail _].
  destruct (@contact_routes_for_principal demo_config demo_ilike 200
              alice_session_token demo_contact_request None
              (demo_world, demo_contacts)) as [_ Hok].
  split.
  - now destruct (Hfail credentials_exception eq_refl).
  - destruct (Hok alice eq_refl) as [(c & Hc & Hu & _) _].
    exists c. split; [exact Hc|exact Hu].
Defined.

(** The birthdays listing compares whole dates: a contact is returned
    exactly when its birthday lies between today and seven days from
    today, both days included, whoever owns it; a contact whose birthday
    is a date before today is never returned.  The table is not changed. *)
Theorem upcoming_birthdays_window today s :
  snd (ContactRepository.upcoming_birthdays today s) = s /\
  exists found,
    fst (ContactRepository.upcoming_birthdays today s) = Ok found /\
    (forall c, In c found <->
               In c (contacts s) /\
               today <= Contact.birthday c <= today + 7) /\
    (forall c, Contact.birthday c < today -> ~ In c found).
Proof.
  unfold ContactRepository.upcoming_birthdays. simpl. split; [reflexivity|].
  eexists. split; [reflexivity|].
  assert (Hiff : forall c,
             In c (List.filter (fun c => Z.leb today (Contact.birthday c)
                                         && Z.leb (Contact.birthday c) (today + 7))
                     (contacts s)) <->
             In c (contacts s) /\ today <= Contact.birthday c <= today + 7).
  { intros c. rewrite filter_In, andb_true_iff, !Z.leb_le. tauto. }
  split; [exact Hiff|].
  intros c Hlt Hin. apply Hiff in Hin. lia.
Qed.
